(** * Social-media sentiment dashboard (media.py): aggregation pipeline

    A shallow embedding of the data loading and aggregation code of
    [media.py] and the properties of its derived tables.

    Modelling conventions.
    - A DataFrame produced by [pd.read_csv] is a list of rows; its default
      RangeIndex makes the label of a row its position.
    - Strings are Rocq [string]s (sequences of bytes).  The case and
      whitespace operations ([str.lower], [str.title], [str.split],
      [len]) are modelled on the ASCII range: a byte above 127 is neither
      cased nor whitespace and counts as one character.  What is proved
      of their results is stated for strings within the ASCII range, and
      against specifications by character code.
    - [Likes] is an integer count ([Z]); a mean is an exact rational ([Q]),
      so the rounding of float64 is not modelled.
    - A cell that [read_csv] leaves empty is NaN.  [Country] and
      [Sentiment] are [option string]; [Text] is a [cell].  [Platform] is
      a plain string: with a missing platform the script raises at
      [sorted(df["Platform"].unique())] (line 22) before any table is
      built. *)

From Stdlib Require Import List Bool Arith ZArith QArith Lia.
From Stdlib Require Import Ascii String DecimalString.
From Stdlib Require Import Permutation Sorted.
Import ListNotations.

Local Close Scope Q_scope.
Local Open Scope string_scope.
Local Open Scope list_scope.
Local Open Scope nat_scope.

(** ** Python string operations (ASCII range) *)

Module PyStr.

Definition code (c : ascii) : nat := nat_of_ascii c.

(** [str.isspace] on one character: TAB..CR, FS..US and the space. *)
Definition isspace (c : ascii) : bool :=
  let n := code c in
  ((9 <=? n) && (n <=? 13)) || ((28 <=? n) && (n <=? 32)).

Definition isupper (c : ascii) : bool :=
  let n := code c in (65 <=? n) && (n <=? 90).

Definition islower (c : ascii) : bool :=
  let n := code c in (97 <=? n) && (n <=? 122).

Definition iscased (c : ascii) : bool := isupper c || islower c.

Definition lower_char (c : ascii) : ascii :=
  if isupper c then ascii_of_nat (code c + 32) else c.

Definition upper_char (c : ascii) : ascii :=
  if islower c then ascii_of_nat (code c - 32) else c.

(** [str.lower] *)
Fixpoint lower (s : string) : string :=
  match s with
  | EmptyString => EmptyString
  | String c tl => String (lower_char c) (lower tl)
  end.

(** [str.title]: a character that follows a cased character is
    lower-cased, any other one is title-cased. *)
Fixpoint title_from (previous_is_cased : bool) (s : string) : string :=
  match s with
  | EmptyString => EmptyString
  | String c tl =>
      String (if previous_is_cased then lower_char c else upper_char c)
             (title_from (iscased c) tl)
  end.

Definition title (s : string) : string := title_from false s.

(** [str.split()] without separator: maximal runs of non-whitespace
    characters; [cur] is the run being read. *)
Fixpoint split_from (cur : string) (s : string) : list string :=
  match s with
  | EmptyString => if (length cur =? 0) then [] else [cur]
  | String c tl =>
      if isspace c
      then (if (length cur =? 0) then split_from "" tl
            else cur :: split_from "" tl)
      else split_from (cur ++ String c "")%string tl
  end.

Definition split (s : string) : list string := split_from "" s.

(** A word: a non-empty string without whitespace. *)
Fixpoint no_space (s : string) : bool :=
  match s with
  | EmptyString => true
  | String c tl => negb (isspace c) && no_space tl
  end.

Definition is_word (w : string) : Prop := no_space w = true /\ length w <> 0.

(** [sep.join(l)] *)
Definition join (sep : string) (l : list string) : string := concat sep l.

End PyStr.

(** ** Cell values and [str()] *)

(** What [read_csv] can put in a cell of the [Text] column: a string, NaN
    for an empty cell, or an integer, a boolean or a float when the whole
    column parses as such.  A float other than NaN is carried as the text
    Python prints for it. *)
Inductive cell : Type :=
| CStr (s : string)
| CNaN
| CInt (z : Z)
| CBool (b : bool)
| CFloat (repr : string).

(** Python's [str(x)] on a cell value. *)
Definition str (x : cell) : string :=
  match x with
  | CStr s => s
  | CNaN => "nan"
  | CInt z => NilZero.string_of_int (Z.to_int z)
  | CBool true => "True"
  | CBool false => "False"
  | CFloat repr => repr
  end.

(** ** Word-cloud preprocessing (lines 246-252) *)

(** The list comprehension of [preprocess_text]. *)
Definition words_of (text : cell) : list string :=
  filter (fun word => (3 <? length word))
         (PyStr.split (PyStr.lower (str text))).

Definition preprocess_text (text : cell) : string :=
  PyStr.join " " (words_of text).

(** ** The relation of posts *)

Record Post : Type := mkPost {
  Platform : string;
  Country : option string;
  Year : Z;
  Month : string;
  Day : Z;
  Sentiment : option string;
  Likes : Z;
  Text : cell;
  User : string
}.

Definition DataFrame : Type := list Post.

Definition with_Platform (p : string) (r : Post) : Post :=
  mkPost p (Country r) (Year r) (Month r) (Day r) (Sentiment r)
         (Likes r) (Text r) (User r).

(** [load_data] (lines 13-17); [csv] is what [pd.read_csv] returned. *)
Definition load_data (csv : DataFrame) : DataFrame :=
  map (fun r => with_Platform (PyStr.title (Platform r)) r) csv.

(** ** A small error monad: [None] is a raised exception *)

Definition bind {A B : Type} (m : option A) (f : A -> option B) : option B :=
  match m with
  | Some a => f a
  | None => None
  end.

Notation "x <- m ;; k" := (bind m (fun x => k))
  (at level 61, m at next level, right associativity).

Fixpoint mapM {A B : Type} (f : A -> option B) (l : list A) : option (list B) :=
  match l with
  | [] => Some []
  | a :: tl => b <- f a ;; bs <- mapM f tl ;; Some (b :: bs)
  end.

(** ** Column helpers *)

(** [Series.dropna] on a column of labels. *)
Definition dropna (col : list (option string)) : list string :=
  flat_map (fun o => match o with Some v => [v] | None => [] end) col.

(** [Series.unique]: distinct values in order of first appearance. *)
Fixpoint unique (l : list string) : list string :=
  match l with
  | [] => []
  | x :: tl => x :: filter (fun y => negb (y =? x)%string) (unique tl)
  end.

(** [sorted] on strings (insertion sort on the code-point order). *)
Fixpoint insert_sorted (x : string) (l : list string) : list string :=
  match l with
  | [] => [x]
  | y :: tl => if String.leb x y then x :: l else y :: insert_sorted x tl
  end.

Definition sorted (l : list string) : list string :=
  fold_right insert_sorted [] l.

(** [col == label] on one cell; NaN equals nothing. *)
Definition cell_eqb (o : option string) (label : string) : bool :=
  match o with
  | Some v => (v =? label)%string
  | None => false
  end.

(** [Series.isin(labels)] on one cell. *)
Definition isin (o : option string) (labels : list string) : bool :=
  match o with
  | Some v => existsb (String.eqb v) labels
  | None => false
  end.

Definition notna (o : option string) : bool :=
  match o with Some _ => true | None => false end.

(** Rows with their index labels. *)
Definition indexed (df : DataFrame) : list (nat * Post) :=
  combine (seq 0 (List.length df)) df.

(** [df.loc[labels]]: a label that is not in the index raises KeyError. *)
Definition loc (df : DataFrame) (labels : list nat) : option (list (nat * Post)) :=
  mapM (fun i => option_map (pair i) (nth_error df i)) labels.

(** ** Group-by *)

(** [df.groupby(key)]: the group labels are the distinct non-null keys in
    sorted order (rows with a null key are dropped); each group keeps its
    rows in frame order. *)
Definition group_keys (key : Post -> option string) (df : list (nat * Post))
  : list string :=
  sorted (unique (dropna (map (fun ir => key (snd ir)) df))).

Definition group_rows (key : Post -> option string) (k : string)
  (df : list (nat * Post)) : list (nat * Post) :=
  filter (fun ir => cell_eqb (key (snd ir)) k) df.

Definition groupby (key : Post -> option string) (df : list (nat * Post))
  : list (string * list (nat * Post)) :=
  map (fun k => (k, group_rows key k df)) (group_keys key df).

Definition by_Platform (r : Post) : option string := Some (Platform r).

(** [Series.idxmax]: the label of the first occurrence of the maximum;
    raises on an empty series. *)
Fixpoint idxmax_from {A : Type} (best : A) (best_value : Z) (l : list (A * Z)) : A :=
  match l with
  | [] => best
  | (a, v) :: tl =>
      if (best_value <? v)%Z then idxmax_from a v tl
      else idxmax_from best best_value tl
  end.

Definition idxmax {A : Type} (l : list (A * Z)) : option A :=
  match l with
  | [] => None
  | (a, v) :: tl => Some (idxmax_from a v tl)
  end.

(** [Series.sum] *)
Definition sum_values (l : list Z) : Z := fold_right Z.add 0%Z l.

(** [Series.mean]: NaN ([None]) on an empty series, otherwise the quotient
    of the sum by the number of values.  pandas computes it in float64;
    the quotient is kept exact here and its rounding is not represented. *)
Definition mean (l : list Z) : option Q :=
  match l with
  | [] => None
  | _ :: _ => Some (Qmake (sum_values l) (Pos.of_nat (List.length l)))
  end.

Definition Likes_column (rows : list (nat * Post)) : list (nat * Z) :=
  map (fun ir => (fst ir, Likes (snd ir))) rows.

(** ** Top post per platform (lines 22-46) *)

Definition unique_platforms (df : DataFrame) : list string :=
  sorted (unique (map Platform df)).

(** [df.groupby("Platform")["Likes"].idxmax()] *)
Definition Likes_idxmax_by_Platform (df : DataFrame) : option (list (string * nat)) :=
  mapM (fun g => i <- idxmax (Likes_column (snd g)) ;; Some (fst g, i))
       (groupby by_Platform (indexed df)).

(** Line 25. *)
Definition most_liked_by_platform (df : DataFrame) : option (list (nat * Post)) :=
  s <- Likes_idxmax_by_Platform df ;; loc df (map snd s).

(** Line 36. *)
Definition platform_post (most_liked : list (nat * Post))
  (selected_platform_radio : string) : list (nat * Post) :=
  filter (fun ir => (Platform (snd ir) =? selected_platform_radio)%string) most_liked.

Inductive sidebar_message : Type :=
| success (platform : string) (likes : Z) (text : cell) (user : string)
| warning (message : string).

(** Lines 37-46. *)
Definition sidebar_top_post (most_liked : list (nat * Post))
  (selected_platform_radio : string) : sidebar_message :=
  match platform_post most_liked selected_platform_radio with
  | post :: _ =>
      success selected_platform_radio (Likes (snd post)) (Text (snd post))
              (User (snd post))
  | [] =>
      warning ("No posts found for " ++ selected_platform_radio ++ ".")%string
  end.

(** ** Filters (lines 48-57) *)

Record Selection : Type := mkSelection {
  selected_platform_radio : string;
  selected_country : string;
  selected_year : Z;
  selected_month : string;
  selected_day : Z
}.

(** Line 50. *)
Definition country_filtered_df (df : DataFrame) (sel : Selection) : DataFrame :=
  filter (fun r => cell_eqb (Country r) (selected_country sel)) df.

(** Line 57: computed from [df], not from the frame of line 50. *)
Definition filtered_df (df : DataFrame) (sel : Selection) : DataFrame :=
  filter (fun r => (Year r =? selected_year sel)%Z
                   && (Month r =? selected_month sel)%string
                   && (Day r =? selected_day sel)%Z) df.

(** ** Top-10 sentiments (lines 63-64) *)

Definition count (k : string) (l : list string) : Z :=
  Z.of_nat (List.length (filter (String.eqb k) l)).

(** Sort of a series by decreasing value.  Among equal values the earlier
    entry stays first (the order of first appearance); no property below
    depends on the order among equal values. *)
Fixpoint insert_desc (x : string * Z) (l : list (string * Z)) : list (string * Z) :=
  match l with
  | [] => [x]
  | y :: tl => if (snd x <? snd y)%Z then y :: insert_desc x tl else x :: l
  end.

Definition sort_desc (l : list (string * Z)) : list (string * Z) :=
  fold_right insert_desc [] l.

(** The order [sort_desc] establishes. *)
Definition desc (x y : string * Z) : Prop := (snd y <= snd x)%Z.

(** [Series.value_counts()]: the count of every distinct non-null value,
    most frequent first. *)
Definition value_counts (col : list (option string)) : list (string * Z) :=
  let values := dropna col in
  sort_desc (map (fun k => (k, count k values)) (unique values)).

(** [Series.nlargest(n)] with the default [keep='first']. *)
Definition nlargest (n : nat) (s : list (string * Z)) : list (string * Z) :=
  firstn n (sort_desc s).

Definition SentimentCounts (df : DataFrame) : list (string * Z) :=
  nlargest 10 (value_counts (map Sentiment df)).

(** Line 63. *)
Definition top_10_sentiments (df : DataFrame) : list string :=
  map fst (SentimentCounts df).

(** Line 64. *)
Definition sentiment_filtered_df (df : DataFrame) : DataFrame :=
  filter (fun r => isin (Sentiment r) (top_10_sentiments df)) df.

(** ** Mean likes (lines 91 and 104) *)

Definition mean_Likes_by (key : Post -> option string) (df : DataFrame)
  : list (string * option Q) :=
  map (fun g => (fst g, mean (map snd (Likes_column (snd g)))))
      (groupby key (indexed df)).

(** Line 91. *)
Definition platform_likes (df : DataFrame) : list (string * option Q) :=
  mean_Likes_by by_Platform df.

(** Line 104. *)
Definition sentiment_likes (df : DataFrame) : list (string * option Q) :=
  mean_Likes_by Sentiment (sentiment_filtered_df df).

(** ** Count matrices (lines 118 and 125) *)

(** A matrix of counts: one entry per index label, holding one cell per
    column label. *)
Definition CountMatrix : Type := list (string * list (string * Z)).

Definition pair_count (rowkey colkey : Post -> option string)
  (p s : string) (df : DataFrame) : Z :=
  Z.of_nat (List.length
    (filter (fun r => cell_eqb (rowkey r) p && cell_eqb (colkey r) s) df)).

(** Cross-tabulation of two label columns.  Rows with a null label in
    either column are dropped; index and columns are the sorted distinct
    labels of the remaining rows; a pair that never occurs is filled
    with 0. *)
Definition crosstab (rowkey colkey : Post -> option string) (df : DataFrame)
  : CountMatrix :=
  let valid := filter (fun r => notna (rowkey r) && notna (colkey r)) df in
  let index := sorted (unique (dropna (map rowkey valid))) in
  let columns := sorted (unique (dropna (map colkey valid))) in
  map (fun p => (p, map (fun s => (s, pair_count rowkey colkey p s df)) columns))
      index.

(** Line 118: [pivot_table(index="Platform", columns="Sentiment",
    aggfunc="size", fill_value=0)]. *)
Definition sentiment_platform_counts (df : DataFrame) : CountMatrix :=
  crosstab by_Platform Sentiment df.

(** [m.loc[p, s]] *)
Definition lookup {V : Type} (k : string) (l : list (string * V)) : option V :=
  option_map snd (find (fun e => (fst e =? k)%string) l).

Definition matrix_cell (m : CountMatrix) (p s : string) : option Z :=
  row <- lookup p m ;; lookup s row.

Definition matrix_sum (m : CountMatrix) : Z :=
  sum_values (map (fun row => sum_values (map snd (snd row))) m).

(** ** Sentiment by country (lines 125-128) *)

(** [row[col] = v]: overwrites an existing column, otherwise appends a
    new last column. *)
Fixpoint setitem (col : string) (v : Z) (row : list (string * Z)) : list (string * Z) :=
  match row with
  | [] => [(col, v)]
  | (c, w) :: tl =>
      if (c =? col)%string then (c, v) :: tl else (c, w) :: setitem col v tl
  end.

Record CountryRow : Type := mkCountryRow {
  row_Country : string;
  row_counts : list (string * Z);
  Dominant_Sentiment : string
}.

Definition country_sentiment (df : DataFrame) : option (list CountryRow) :=
  mapM (fun cr =>
          (* line 126 *)
          let counts :=
            setitem "Total_Posts" (sum_values (map snd (snd cr))) (snd cr) in
          (* line 127 *)
          dominant <- idxmax counts ;;
          Some (mkCountryRow (fst cr) counts dominant))
       (* line 125 *)
       (crosstab Country Sentiment df).

(** ** Word cloud input (line 252) *)

Definition all_text (df : DataFrame) : string :=
  PyStr.join " " (map (fun r => preprocess_text (Text r)) df).

(** ** Widget options (lines 49-55) *)

(** Line 49: the options of the country selectbox. *)
Definition country_options (df : DataFrame) : list string :=
  unique (dropna (map Country df)).

(** [Series.min] and [Series.max] followed by [int(...)]: an empty series
    gives NaN, on which [int] raises. *)
Definition int_min (l : list Z) : option Z :=
  match l with
  | [] => None
  | x :: tl => Some (fold_left Z.min tl x)
  end.

Definition int_max (l : list Z) : option Z :=
  match l with
  | [] => None
  | x :: tl => Some (fold_left Z.max tl x)
  end.

(** Line 53: the bounds and the initial value of the year slider. *)
Record Slider : Type := mkSlider {
  min_value : Z;
  max_value : Z;
  value : Z
}.

Definition year_slider (df : DataFrame) : option Slider :=
  lo <- int_min (map Year df) ;;
  hi <- int_max (map Year df) ;;
  initial <- int_max (map Year df) ;;
  Some (mkSlider lo hi initial).

(** Line 54: the options of the month selectbox. *)
Definition month_options (df : DataFrame) : list string :=
  unique (map Month df).

(** ** The script *)

Record Views : Type := mkViews {
  view_sidebar : sidebar_message;
  view_top_10_sentiments : list string;
  view_sentiment_filtered_df : DataFrame;
  view_platform_likes : list (string * option Q);
  view_sentiment_likes : list (string * option Q);
  view_sentiment_platform_counts : CountMatrix;
  view_country_sentiment : list CountryRow;
  view_all_text : string
}.

(** The tables that one run of the script computes from the frame read
    from the file and the values returned by the widgets; [None] when a
    statement on the way raises.  Drawing the charts and the word cloud is
    left to the libraries and is not part of it. *)
Definition dashboard (csv : DataFrame) (sel : Selection) : option Views :=
  let df := load_data csv in
  most_liked <- most_liked_by_platform df ;;
  let sidebar := sidebar_top_post most_liked (selected_platform_radio sel) in
  (* lines 50 and 57: assigned twice, read by no later statement *)
  let filtered := country_filtered_df df sel in
  (* line 53: the arguments of the year slider *)
  slider <- year_slider df ;;
  let filtered := filtered_df df sel in
  countries <- country_sentiment df ;;
  Some (mkViews sidebar
                (top_10_sentiments df)
                (sentiment_filtered_df df)
                (platform_likes df)
                (sentiment_likes df)
                (sentiment_platform_counts df)
                countries
                (all_text df)).

(** ** Fixtures *)

Definition post (platform country : string) (year : Z) (month : string)
  (day : Z) (sentiment : string) (likes : Z) : Post :=
  mkPost platform (Some country) year month day (Some sentiment) likes
         (CStr "") "".

Definition fixture5 : DataFrame :=
  [ post "Twitter" "US" 2023 "Jan" 1 "Joy" 10;
    post "twitter" "US" 2023 "Jan" 1 "Joy" 50;
    post "Facebook" "UK" 2023 "Feb" 2 "Anger" 5;
    post "Facebook" "UK" 2023 "Feb" 2 "Joy" 20;
    post "Instagram" "US" 2023 "Jan" 1 "Joy" 1 ].

(** ** Country drill-down (lines 170-237) *)

(** [l[start:stop]] *)
Definition py_slice {A : Type} (start stop : Z) (l : list A) : list A :=
  let n := Z.of_nat (List.length l) in
  let clamp i := if (i <? 0)%Z then Z.max (i + n) 0 else Z.min i n in
  let first := Z.to_nat (clamp start) in
  let last := Z.to_nat (clamp stop) in
  firstn (last - first) (skipn first l).

(** [l.index(x)]: raises ValueError when [x] is not in the list. *)
Fixpoint list_index (x : string) (l : list string) : option nat :=
  match l with
  | [] => None
  | y :: tl => if (y =? x)%string then Some 0 else option_map S (list_index x tl)
  end.

(** [x in l] *)
Definition contains (x : string) (l : list string) : bool :=
  existsb (String.eqb x) l.

(** The column labels of the matrix of line 125. *)
Definition crosstab_columns (rowkey colkey : Post -> option string)
  (df : DataFrame) : list string :=
  sorted (unique (dropna (map colkey
    (filter (fun r => notna (rowkey r) && notna (colkey r)) df)))).


(** Line 171. *)
Definition country_list (rows : list CountryRow) : list string :=
  sorted (unique (map row_Country rows)).

(** Line 175: the initial position of the country selectbox. *)
Definition default_country_index (countries : list string) : option nat :=
  if contains "United States" countries
  then list_index "United States" countries
  else Some 0.




(** Line 211: the initial selection of the comparison multiselect. *)
Definition default_compare_countries (countries : list string) : list string :=
  if contains "United States" countries && contains "United Kingdom" countries
  then ["United States"; "United Kingdom"]
  else py_slice 0 2 countries.


(** The order of [sorted]. *)
Definition ascending (a b : string) : Prop := String.leb a b = true.

(** Rows in the order of their index labels. *)
Definition by_label {V : Type} (a b : nat * V) : Prop := fst a < fst b.

(** One country whose two posts carry different sentiments. *)
Definition two_sentiments : DataFrame :=
  [ post "Twitter" "US" 2023 "Jan" 1 "Joy" 10;
    post "Twitter" "US" 2023 "Jan" 1 "Anger" 5 ].

(** Two posts that differ in country and date. *)
Definition two_countries : DataFrame :=
  [ post "Twitter" "US" 2023 "Jan" 1 "Joy" 10;
    post "Twitter" "UK" 2023 "Feb" 2 "Joy" 50 ].

(** A post without a sentiment label. *)
Definition unlabelled : DataFrame :=
  [ mkPost "Twitter" (Some "US") 2023 "Jan" 1 None 10 (CStr "") "" ].

(** The rows the filter selection asks for, as the specification words
    it: the conjunction of the country, year, month and day predicates. *)
Definition rows_matching_selection (df : DataFrame) (sel : Selection) : DataFrame :=
  filter (fun r => cell_eqb (Country r) (selected_country sel)
                   && (Year r =? selected_year sel)%Z
                   && (Month r =? selected_month sel)%string
                   && (Day r =? selected_day sel)%Z) df.

(** ** Specifications by character code *)

(** The character codes of a string. *)
Definition codes (s : string) : list nat :=
  map nat_of_ascii (list_ascii_of_string s).

(** A string within the ASCII range, where a byte is a character and
    Python's case and whitespace rules are those of the ASCII table. *)
Definition is_ascii (s : string) : Prop :=
  forallb (fun n => n <? 128) (codes s) = true.

(** The ASCII table: capital letters have the codes 65-90, small letters
    the codes 97-122, 32 further on. *)
Definition lower_code (n : nat) : nat :=
  if (65 <=? n) && (n <=? 90) then n + 32 else n.

Definition upper_code (n : nat) : nat :=
  if (97 <=? n) && (n <=? 122) then n - 32 else n.

Definition letter_code (n : nat) : bool :=
  ((65 <=? n) && (n <=? 90)) || ((97 <=? n) && (n <=? 122)).

(** Whitespace: TAB, LF, VT, FF, CR, FS, GS, RS, US and the space. *)
Definition space_code (n : nat) : bool :=
  ((9 <=? n) && (n <=? 13)) || ((28 <=? n) && (n <=? 32)).

(** Whether the character before position [i] is a letter. *)
Definition after_letter (cs : list nat) (i : nat) : bool :=
  match i with
  | 0 => false
  | S j => match nth_error cs j with
           | Some p => letter_code p
           | None => false
           end
  end.

(** [t] is [s] in title case: a letter that follows a letter is small,
    any other letter is a capital, and nothing else changes. *)
Definition title_cased (s t : string) : Prop :=
  List.length (codes t) = List.length (codes s) /\
  forall i n, nth_error (codes s) i = Some n ->
    nth_error (codes t) i =
    Some (if after_letter (codes s) i then lower_code n else upper_code n).

(** Two strings that differ at most in the case of their letters. *)
Definition same_ignoring_case (s t : string) : Prop :=
  map lower_code (codes s) = map lower_code (codes t).


(** A string of whitespace only; a token: a non-empty string without
    whitespace; what may follow a token: nothing, or whitespace. *)
Definition blank (s : string) : Prop :=
  forallb space_code (codes s) = true.

Definition solid (w : string) : Prop :=
  w <> "" /\ forallb (fun n => negb (space_code n)) (codes w) = true.

Definition ends_token (rest : string) : Prop :=
  match rest with
  | EmptyString => True
  | String c _ => space_code (nat_of_ascii c) = true
  end.

(** [whitespace_split s tokens]: [tokens] are the maximal runs of
    non-whitespace characters of [s], from left to right. *)
Inductive whitespace_split : string -> list string -> Prop :=
| split_blank s : blank s -> whitespace_split s []
| split_token b w rest tokens :
    blank b -> solid w -> ends_token rest ->
    whitespace_split rest tokens ->
    whitespace_split (b ++ w ++ rest) (w :: tokens).

(** Posts with text. *)
Definition texts : DataFrame :=
  [ mkPost "Twitter" (Some "US") 2023 "Jan" 1 (Some "Joy") 10
           (CStr "The QUICK brown fox  jumps") "ann";
    mkPost "Twitter" (Some "US") 2023 "Jan" 1 (Some "Joy") 5 CNaN "bob";
    mkPost "Facebook" (Some "UK") 2023 "Feb" 2 (Some "Anger") 7
           (CStr "over a LAZY dog") "cat" ].

(** fig2 (lines 80-85), [px.bar(df, x="Platform")]: one bar per platform
    in order of first appearance, its height the number of rows. *)
Definition posts_by_platform (df : DataFrame) : list (string * Z) :=
  map (fun p => (p, count p (map Platform df))) (unique (map Platform df)).

(** A top row of the platform [k]: a row of the frame, of that platform,
    whose likes no row of the platform exceeds. *)
Definition top_of (df : DataFrame) (k : string) (entry : nat * Post) : Prop :=
  nth_error df (fst entry) = Some (snd entry) /\
  Platform (snd entry) = k /\
  forall r, In r df -> Platform r = k -> (Likes r <= Likes (snd entry))%Z.

(** What lines 126-127 make of one row of the matrix of line 125. *)
Definition country_row_of (cr : string * list (string * Z)) (row : CountryRow) : Prop :=
  row_Country row = fst cr /\
  row_counts row = setitem "Total_Posts" (sum_values (map snd (snd cr))) (snd cr) /\
  idxmax (row_counts row) = Some (Dominant_Sentiment row).

(** * Properties *)

(** ** Strings *)

Module PyStrFacts.
Import PyStr.

Ltac by_cases_on_char c :=
  destruct c as [[] [] [] [] [] [] [] []]; reflexivity.

Lemma isspace_lower_char c : isspace (lower_char c) = isspace c.
Proof. by_cases_on_char c. Qed.

Lemma iscased_lower_char c : iscased (lower_char c) = iscased c.
Proof. by_cases_on_char c. Qed.

Lemma lower_lower_char c : lower_char (lower_char c) = lower_char c.
Proof. by_cases_on_char c. Qed.

Lemma upper_lower_char c : upper_char (lower_char c) = upper_char c.
Proof. by_cases_on_char c. Qed.

Lemma title_from_lower b s : title_from b (lower s) = title_from b s.
Proof.
  revert b; induction s as [|c tl IH]; intro b; simpl; [reflexivity|].
  rewrite iscased_lower_char, IH, lower_lower_char, upper_lower_char.
  reflexivity.
Qed.

(** Strings that differ by the case of their letters only get the same
    title-cased form. *)
Lemma title_case_insensitive s1 s2 : lower s1 = lower s2 -> title s1 = title s2.
Proof.
  intro H. unfold title.
  rewrite <- (title_from_lower false s1), <- (title_from_lower false s2), H.
  reflexivity.
Qed.

Lemma length_lower s : length (lower s) = length s.
Proof. induction s; simpl; congruence. Qed.

Lemma lower_app s1 s2 : lower (s1 ++ s2) = (lower s1 ++ lower s2)%string.
Proof. induction s1; simpl; congruence. Qed.


Lemma append_empty_r s : (s ++ "")%string = s.
Proof. induction s; simpl; congruence. Qed.

Lemma append_assoc s1 s2 s3 :
  ((s1 ++ s2) ++ s3)%string = (s1 ++ (s2 ++ s3))%string.
Proof. induction s1; simpl; congruence. Qed.

(** Lower-casing commutes with splitting. *)
Lemma split_from_lower cur s :
  split_from (lower cur) (lower s) = map lower (split_from cur s).
Proof.
  revert cur; induction s as [|c tl IH]; intro cur; simpl.
  - rewrite length_lower. destruct (length cur =? 0); reflexivity.
  - rewrite isspace_lower_char, length_lower.
    destruct (isspace c).
    + destruct (length cur =? 0); simpl; rewrite <- (IH ""); reflexivity.
    + rewrite <- IH, lower_app. reflexivity.
Qed.

Lemma split_lower s : split (lower s) = map lower (split s).
Proof. exact (split_from_lower "" s). Qed.

Lemma no_space_app s1 s2 :
  no_space (s1 ++ s2) = no_space s1 && no_space s2.
Proof.
  induction s1 as [|c tl IH]; simpl; [reflexivity|].
  rewrite IH, andb_assoc. reflexivity.
Qed.

Lemma split_from_words cur s :
  no_space cur = true -> Forall is_word (split_from cur s).
Proof.
  revert cur; induction s as [|c tl IH]; intros cur Hcur; simpl.
  - destruct (Nat.eqb_spec (length cur) 0); constructor; [split; assumption|constructor].
  - destruct (isspace c) eqn:Hc.
    + destruct (Nat.eqb_spec (length cur) 0).
      * apply IH; reflexivity.
      * constructor; [split; assumption | apply IH; reflexivity].
    + apply IH. rewrite no_space_app, Hcur. simpl. rewrite Hc. reflexivity.
Qed.

Lemma split_words s : Forall is_word (split s).
Proof. apply split_from_words; reflexivity. Qed.

Lemma split_from_word cur w :
  no_space w = true -> length (cur ++ w) <> 0 ->
  split_from cur w = [(cur ++ w)%string].
Proof.
  revert cur; induction w as [|c tl IH]; intros cur Hw Hlen; simpl in *.
  - rewrite append_empty_r in *.
    destruct (Nat.eqb_spec (length cur) 0); [contradiction|reflexivity].
  - apply andb_prop in Hw as [Hc Htl].
    apply negb_true_iff in Hc. rewrite Hc.
    rewrite IH; [|assumption|].
    + rewrite append_assoc. reflexivity.
    + rewrite append_assoc. exact Hlen.
Qed.

Lemma split_word w : is_word w -> split w = [w].
Proof. intros [Hw Hlen]. apply (split_from_word "" w Hw Hlen). Qed.

(** Splitting distributes over a separating space. *)
Lemma split_from_app_space cur s1 s2 :
  split_from cur (s1 ++ String " " s2) = split_from cur s1 ++ split s2.
Proof.
  revert cur; induction s1 as [|c tl IH]; intro cur; simpl.
  - destruct (length cur =? 0); reflexivity.
  - destruct (isspace c).
    + destruct (length cur =? 0); simpl; rewrite IH; reflexivity.
    + apply IH.
Qed.

Lemma split_join l : split (join " " l) = flat_map split l.
Proof.
  induction l as [|x xs IH]; [reflexivity|].
  unfold join in *. simpl. destruct xs as [|y tl].
  - rewrite app_nil_r. reflexivity.
  - unfold split at 1. rewrite split_from_app_space. rewrite IH. reflexivity.
Qed.

Lemma flat_map_split_words l : Forall is_word l -> flat_map split l = l.
Proof.
  induction 1 as [|w tl Hw _ IH]; simpl; [reflexivity|].
  rewrite (split_word w Hw), IH. reflexivity.
Qed.

Lemma split_join_words l : Forall is_word l -> split (join " " l) = l.
Proof. intro H. rewrite split_join. apply flat_map_split_words, H. Qed.

End PyStrFacts.

(** ** Lists, columns and the error monad *)

Section ColumnFacts.

Lemma in_dropna v col : In v (dropna col) <-> In (Some v) col.
Proof.
  unfold dropna. rewrite in_flat_map. split.
  - intros [[w|] [Hin Hv]]; simpl in Hv; [|contradiction].
    destruct Hv as [->|[]]. exact Hin.
  - intro Hin. exists (Some v). split; [exact Hin | left; reflexivity].
Qed.

Lemma in_unique x l : In x (unique l) <-> In x l.
Proof.
  induction l as [|y tl IH]; simpl; [tauto|].
  rewrite filter_In, IH, negb_true_iff, String.eqb_neq.
  destruct (string_dec y x) as [->|Hne]; [tauto|].
  split; [tauto|]. intros [H|H]; [tauto|]. right. split; [exact H|congruence].
Qed.

Lemma NoDup_unique l : NoDup (unique l).
Proof.
  induction l as [|y tl IH]; simpl; constructor.
  - rewrite filter_In, negb_true_iff, String.eqb_neq. tauto.
  - apply NoDup_filter, IH.
Qed.

Lemma insert_sorted_perm x l : Permutation (insert_sorted x l) (x :: l).
Proof.
  induction l as [|y tl IH]; simpl; [reflexivity|].
  destruct (String.leb x y); [reflexivity|].
  rewrite IH. apply perm_swap.
Qed.

Lemma sorted_perm l : Permutation (sorted l) l.
Proof.
  induction l as [|x tl IH]; simpl; [reflexivity|].
  rewrite insert_sorted_perm, IH. reflexivity.
Qed.

Lemma in_sorted x l : In x (sorted l) <-> In x l.
Proof.
  split; apply Permutation_in;
    [apply sorted_perm | apply Permutation_sym, sorted_perm].
Qed.

Lemma NoDup_sorted l : NoDup l -> NoDup (sorted l).
Proof. apply Permutation_NoDup, Permutation_sym, sorted_perm. Qed.

Lemma cell_eqb_true o k : cell_eqb o k = true <-> o = Some k.
Proof.
  destruct o as [v|]; simpl.
  - rewrite String.eqb_eq. split; congruence.
  - split; discriminate.
Qed.

Lemma notna_true o : notna o = true <-> exists v, o = Some v.
Proof.
  destruct o as [v|]; simpl; split; try discriminate; eauto.
  intros [v H]; discriminate.
Qed.

Lemma isin_true o labels :
  isin o labels = true <-> exists v, o = Some v /\ In v labels.
Proof.
  destruct o as [v|]; simpl.
  - rewrite existsb_exists. split.
    + intros [x [Hin Heq]]. apply String.eqb_eq in Heq. subst x. eauto.
    + intros [w [Hw Hin]]. injection Hw as <-. exists v.
      split; [exact Hin | apply String.eqb_refl].
  - split; [discriminate | intros [v [H _]]; discriminate].
Qed.

(** The distinct sorted labels of a column. *)
Lemma in_labels (X : Type) (key : X -> option string) (l : list X) k :
  In k (sorted (unique (dropna (map key l)))) <->
  exists x, In x l /\ key x = Some k.
Proof.
  rewrite in_sorted, in_unique, in_dropna, in_map_iff.
  split; intros [x [H1 H2]]; exists x; tauto.
Qed.

Lemma NoDup_labels (col : list (option string)) :
  NoDup (sorted (unique (dropna col))).
Proof. apply NoDup_sorted, NoDup_unique. Qed.

(** [lookup] in a table built from its keys. *)
Lemma lookup_map (V : Type) (f : string -> V) ks k :
  lookup k (map (fun x => (x, f x)) ks) = if in_dec string_dec k ks then Some (f k) else None.
Proof.
  unfold lookup. induction ks as [|x tl IH]; simpl; [reflexivity|].
  destruct (String.eqb_spec x k) as [->|Hne]; simpl.
  - destruct (string_dec k k); [reflexivity|congruence].
  - destruct (string_dec x k); [congruence|].
    rewrite IH. destruct (in_dec string_dec k tl); reflexivity.
Qed.

(** Index labels. *)
Lemma in_combine_seq (X : Type) (l : list X) a i x :
  In (i, x) (combine (seq a (List.length l)) l) <->
  a <= i /\ nth_error l (i - a) = Some x.
Proof.
  revert a; induction l as [|y tl IH]; intro a; simpl.
  - split; [tauto|]. intros [_ H]. destruct (i - a); discriminate.
  - rewrite IH. split.
    + intros [H|[Hle H]].
      * injection H as <- <-. rewrite Nat.sub_diag. split; [lia|reflexivity].
      * replace (i - a) with (S (i - S a)) by lia. split; [lia|exact H].
    + intros [Hle H]. destruct (Nat.eq_dec a i) as [->|Hne].
      * rewrite Nat.sub_diag in H. simpl in H. injection H as ->. left; reflexivity.
      * right. split; [lia|].
        replace (i - a) with (S (i - S a)) in H by lia. exact H.
Qed.

Lemma in_indexed df i r : In (i, r) (indexed df) <-> nth_error df i = Some r.
Proof.
  unfold indexed. rewrite in_combine_seq, Nat.sub_0_r.
  split; [tauto | intro H; split; [lia | exact H]].
Qed.

Lemma map_snd_combine_seq (X : Type) (l : list X) a :
  map snd (combine (seq a (List.length l)) l) = l.
Proof. revert a; induction l; intro; simpl; [|rewrite IHl]; reflexivity. Qed.

Lemma map_snd_indexed df : map snd (indexed df) = df.
Proof. apply map_snd_combine_seq. Qed.

Lemma map_snd_filter (X Y : Type) (P : Y -> bool) (l : list (X * Y)) :
  map snd (filter (fun e => P (snd e)) l) = filter P (map snd l).
Proof.
  induction l as [|e tl IH]; simpl; [reflexivity|].
  destruct (P (snd e)); simpl; rewrite IH; reflexivity.
Qed.

(** The rows of a group are the rows of the frame with that key. *)
Lemma group_rows_indexed key k df :
  map snd (group_rows key k (indexed df)) =
  filter (fun r => cell_eqb (key r) k) df.
Proof.
  unfold group_rows.
  rewrite (map_snd_filter _ _ (fun r => cell_eqb (key r) k)), map_snd_indexed.
  reflexivity.
Qed.

Lemma group_keys_indexed key df :
  group_keys key (indexed df) = sorted (unique (dropna (map key df))).
Proof.
  unfold group_keys.
  rewrite <- (map_map snd key), map_snd_indexed. reflexivity.
Qed.

(** The error monad. *)
Lemma mapM_Forall2 (X Y : Type) (f : X -> option Y) l bs :
  mapM f l = Some bs -> Forall2 (fun a b => f a = Some b) l bs.
Proof.
  revert bs; induction l as [|a tl IH]; simpl; intros bs H.
  - injection H as <-. constructor.
  - destruct (f a) as [b|] eqn:Hb; simpl in H; [|discriminate].
    destruct (mapM f tl) as [bs'|]; simpl in H; [|discriminate].
    injection H as <-. constructor; [exact Hb | apply IH; reflexivity].
Qed.

Lemma mapM_total (X Y : Type) (f : X -> option Y) l :
  (forall a, In a l -> exists b, f a = Some b) -> exists bs, mapM f l = Some bs.
Proof.
  induction l as [|a tl IH]; simpl; intro H; [eauto|].
  destruct (H a (or_introl eq_refl)) as [b ->].
  destruct IH as [bs ->]; [intros; apply H; right; assumption|].
  simpl. eauto.
Qed.

Lemma Forall2_map_l (X Y Z : Type) (g : X -> Y) (R : Y -> Z -> Prop) l l' :
  Forall2 R (map g l) l' -> Forall2 (fun a b => R (g a) b) l l'.
Proof.
  revert l'; induction l as [|a tl IH]; simpl; intros l' H;
    inversion H; subst; constructor; auto.
Qed.

Lemma Forall2_compose (X Y Z : Type) (R1 : X -> Y -> Prop) (R2 : Y -> Z -> Prop) l1 l2 l3 :
  Forall2 R1 l1 l2 -> Forall2 R2 l2 l3 ->
  Forall2 (fun a c => exists b, R1 a b /\ R2 b c) l1 l3.
Proof.
  intro H; revert l3; induction H; intros l3 H3; inversion H3; subst;
    constructor; eauto.
Qed.

Lemma Forall2_impl (X Y : Type) (R R' : X -> Y -> Prop) l l' :
  (forall a b, In a l -> R a b -> R' a b) -> Forall2 R l l' -> Forall2 R' l l'.
Proof.
  intros HR H; induction H; constructor.
  - apply HR; [left; reflexivity | assumption].
  - apply IHForall2. intros; apply HR; [right|]; assumption.
Qed.

Lemma Forall2_in_r (X Y : Type) (R : X -> Y -> Prop) l l' b :
  Forall2 R l l' -> In b l' -> exists a, In a l /\ R a b.
Proof.
  induction 1; simpl; [tauto|].
  intros [<-|Hin]; [eauto|]. destruct (IHForall2 Hin) as [a [? ?]]; eauto.
Qed.

Lemma Forall2_map_eq (X Y K : Type) (R : X -> Y -> Prop) (f : X -> K) (g : Y -> K) l l' :
  (forall a b, R a b -> f a = g b) -> Forall2 R l l' -> map f l = map g l'.
Proof.
  intros HR H; induction H; simpl; [reflexivity|].
  rewrite (HR _ _ H), IHForall2. reflexivity.
Qed.

(** One entry per key: selecting a key yields exactly its entry. *)
Lemma filter_key_singleton (X : Type) (key : X -> string) (l : list X) k :
  NoDup (map key l) -> In k (map key l) ->
  exists x, filter (fun a => (key a =? k)%string) l = [x] /\ In x l /\ key x = k.
Proof.
  induction l as [|a tl IH]; simpl; intros Hnd Hin; [contradiction|].
  inversion Hnd as [|? ? Hnotin Hnd']; subst.
  destruct (String.eqb_spec (key a) k) as [Heq|Hne].
  - exists a. split; [|tauto]. f_equal.
    rewrite <- Heq in *. clear -Hnotin.
    induction tl as [|b tl IH]; simpl; [reflexivity|].
    destruct (String.eqb_spec (key b) (key a)) as [Heq|Hne].
    + exfalso. apply Hnotin. left. exact Heq.
    + apply IH. intro H. apply Hnotin. right. exact H.
  - destruct Hin as [Hin|Hin]; [contradiction|].
    destruct (IH Hnd' Hin) as [x [Hf [Hx Hk]]]. exists x. tauto.
Qed.

End ColumnFacts.

(** ** Top post per platform *)

Section TopPost.

Lemma idxmax_from_max (A : Type) (l : list (A * Z)) best best_value :
  exists v, In (idxmax_from best best_value l, v) ((best, best_value) :: l) /\
            forall a' v', In (a', v') ((best, best_value) :: l) -> (v' <= v)%Z.
Proof.
  revert best best_value; induction l as [|[a v] tl IH]; intros best bv; simpl.
  - exists bv. split; [left; reflexivity|].
    intros a' v' [H|[]]. injection H as _ <-. lia.
  - destruct (Z.ltb_spec bv v) as [Hlt|Hge].
    + destruct (IH a v) as [w [Hin Hmax]]. exists w. split.
      * right. exact Hin.
      * intros a' v' [H|H]; [|apply (Hmax a' v' H)].
        injection H as _ <-. specialize (Hmax a v (or_introl eq_refl)). lia.
    + destruct (IH best bv) as [w [Hin Hmax]]. exists w. split.
      * destruct Hin as [Hin|Hin]; [left; exact Hin | right; right; exact Hin].
      * intros a' v' [H|[H|H]].
        -- apply (Hmax a' v'). left. exact H.
        -- injection H as _ <-. specialize (Hmax best bv (or_introl eq_refl)). lia.
        -- apply (Hmax a' v'). right. exact H.
Qed.

(** [idxmax] returns a label that carries the maximum of the series. *)
Lemma idxmax_max (A : Type) (l : list (A * Z)) i :
  idxmax l = Some i ->
  exists v, In (i, v) l /\ forall a' v', In (a', v') l -> (v' <= v)%Z.
Proof.
  destruct l as [|[a v] tl]; simpl; [discriminate|].
  intro H. injection H as <-. apply idxmax_from_max.
Qed.

Lemma idxmax_total (A : Type) (l : list (A * Z)) :
  l <> [] -> exists i, idxmax l = Some i.
Proof. destruct l as [|[a v] tl]; [congruence | simpl; eauto]. Qed.

Lemma in_Likes_column rows i v :
  In (i, v) (Likes_column rows) <-> exists r, In (i, r) rows /\ v = Likes r.
Proof.
  unfold Likes_column. rewrite in_map_iff. split.
  - intros [[j r] [H Hin]]. simpl in H. injection H as <- <-. eauto.
  - intros [r [Hin ->]]. exists (i, r). split; [reflexivity | exact Hin].
Qed.

Lemma in_group_rows key k df i r :
  In (i, r) (group_rows key k (indexed df)) <->
  nth_error df i = Some r /\ key r = Some k.
Proof.
  unfold group_rows. rewrite filter_In, in_indexed. simpl.
  rewrite cell_eqb_true. tauto.
Qed.

Lemma in_platform_keys df k :
  In k (group_keys by_Platform (indexed df)) <-> In k (map Platform df).
Proof.
  rewrite group_keys_indexed, in_labels, in_map_iff. unfold by_Platform.
  split; intros [r [H1 H2]]; exists r.
  - split; [congruence | exact H1].
  - split; [exact H2 | congruence].
Qed.

Lemma idxmax_group_top df k i r :
  idxmax (Likes_column (group_rows by_Platform k (indexed df))) = Some i ->
  nth_error df i = Some r ->
  top_of df k (i, r).
Proof.
  intros Hmax Hnth. apply idxmax_max in Hmax as [v [Hin Hle]].
  apply in_Likes_column in Hin as [r' [Hin ->]].
  apply in_group_rows in Hin as [Hnth' Hk].
  assert (r' = r) by congruence. subst r'.
  unfold by_Platform in Hk. injection Hk as Hk.
  repeat split; [exact Hnth | exact Hk |].
  intros r2 Hin2 Hp2. apply In_nth_error in Hin2 as [j Hj].
  apply (Hle j). apply in_Likes_column. exists r2. split; [|reflexivity].
  apply in_group_rows. split; [exact Hj | unfold by_Platform; congruence].
Qed.

(** Line 25 never raises, and yields one top row per platform, in the
    order of the sorted platform labels. *)
Lemma most_liked_by_platform_spec df :
  exists most_liked,
    most_liked_by_platform df = Some most_liked /\
    Forall2 (top_of df) (group_keys by_Platform (indexed df)) most_liked.
Proof.
  unfold most_liked_by_platform, Likes_idxmax_by_Platform, groupby.
  set (keys := group_keys by_Platform (indexed df)).
  assert (Hkeys : forall k, In k keys -> In k (map Platform df))
    by (intro k; apply in_platform_keys).
  destruct (mapM_total _ _
    (fun g : string * list (nat * Post) =>
       i <- idxmax (Likes_column (snd g)) ;; Some (fst g, i))
    (map (fun k => (k, group_rows by_Platform k (indexed df))) keys))
    as [s Hs].
  { intros g Hg. apply in_map_iff in Hg as [k [<- Hk]]. simpl.
    destruct (idxmax_total _ (Likes_column (group_rows by_Platform k (indexed df))))
      as [i ->]; [|simpl; eauto].
    apply Hkeys in Hk. apply in_map_iff in Hk as [r [Hr Hin]].
    apply In_nth_error in Hin as [j Hj].
    assert (Hin : In (j, Likes r) (Likes_column (group_rows by_Platform k (indexed df)))).
    { apply in_Likes_column. exists r. split; [|reflexivity].
      apply in_group_rows. split; [exact Hj | unfold by_Platform; congruence]. }
    intro Hnil. rewrite Hnil in Hin. exact Hin. }
  rewrite Hs. simpl.
  pose proof (Forall2_map_l _ _ _ _ _ _ _ (mapM_Forall2 _ _ _ _ _ Hs)) as F1.
  simpl in F1.
  assert (F1' : Forall2 (fun k (e : string * nat) =>
            fst e = k /\
            idxmax (Likes_column (group_rows by_Platform k (indexed df))) = Some (snd e))
            keys s).
  { eapply Forall2_impl; [|exact F1]. intros k [k' i] _ H. simpl in *.
    destruct (idxmax _) as [i'|]; simpl in H; [|discriminate].
    injection H as <- <-. split; reflexivity. }
  clear F1 Hs.
  destruct (mapM_total _ _ (fun i => option_map (pair i) (nth_error df i)) (map snd s))
    as [ml Hml].
  { intros i Hi. apply in_map_iff in Hi as [e [<- He]].
    destruct (Forall2_in_r _ _ _ _ _ _ F1' He) as [k [_ [_ Hmax]]].
    apply idxmax_max in Hmax as [v [Hin _]].
    apply in_Likes_column in Hin as [r [Hin _]].
    apply in_group_rows in Hin as [-> _]. simpl. eauto. }
  exists ml. unfold loc. split; [exact Hml|].
  pose proof (Forall2_map_l _ _ _ _ _ _ _ (mapM_Forall2 _ _ _ _ _ Hml)) as F2.
  simpl in F2.
  eapply Forall2_impl; [|exact (Forall2_compose _ _ _ _ _ _ _ _ F1' F2)].
  intros k [i r] _ [e [[_ Hmax] Hloc]]. simpl in Hloc.
  destruct (nth_error df (snd e)) as [r'|] eqn:Hnth; simpl in Hloc; [|discriminate].
  injection Hloc as <- <-.
  apply idxmax_group_top; assumption.
Qed.

Lemma most_liked_platforms df most_liked :
  Forall2 (top_of df) (group_keys by_Platform (indexed df)) most_liked ->
  map (fun ir => Platform (snd ir)) most_liked = group_keys by_Platform (indexed df).
Proof.
  intro F. symmetry.
  rewrite <- (map_id (group_keys by_Platform (indexed df))) at 1.
  eapply Forall2_map_eq; [|exact F].
  intros k e [_ [H _]]. symmetry. exact H.
Qed.

End TopPost.

(** C3: for every platform P present in the loaded data, line 25 yields
    exactly one entry for P; it is a row of the frame with platform P and
    its likes are the maximum of the likes over all rows with platform P
    (attained by that row, and no row of the platform has more). *)
Theorem C3_top_post_likes_is_max (csv : DataFrame) (P : string)
  (HP : In P (map Platform (load_data csv))) :
  let df := load_data csv in
  exists most_liked entry,
    most_liked_by_platform df = Some most_liked /\
    platform_post most_liked P = [entry] /\
    nth_error df (fst entry) = Some (snd entry) /\
    Platform (snd entry) = P /\
    forall r, In r df -> Platform r = P -> (Likes r <= Likes (snd entry))%Z.
Proof.
  intro df. subst df.
  destruct (most_liked_by_platform_spec (load_data csv)) as [ml [Hml F]].
  pose proof (most_liked_platforms _ _ F) as Hkeys.
  destruct (filter_key_singleton _ (fun ir : nat * Post => Platform (snd ir)) ml P)
    as [entry [Hf [Hin HPe]]].
  - rewrite Hkeys. unfold group_keys. apply NoDup_labels.
  - rewrite Hkeys. apply in_platform_keys. exact HP.
  - exists ml, entry. split; [exact Hml|]. split; [exact Hf|].
    destruct (Forall2_in_r _ _ _ _ _ _ F Hin) as [k [_ [Hnth [Hk Hmax]]]].
    assert (Hkp : k = P) by congruence. rewrite Hkp in Hmax.
    split; [exact Hnth|]. split; [exact HPe|]. exact Hmax.
Qed.

Lemma C3_top_post_likes_is_max_witness :
  exists most_liked entry,
    most_liked_by_platform (load_data fixture5) = Some most_liked /\
    platform_post most_liked "Twitter" = [entry] /\
    nth_error (load_data fixture5) (fst entry) = Some (snd entry) /\
    Platform (snd entry) = "Twitter" /\
    forall r, In r (load_data fixture5) -> Platform r = "Twitter" ->
              (Likes r <= Likes (snd entry))%Z.
Proof.
  apply (C3_top_post_likes_is_max fixture5 "Twitter").
  simpl. left. reflexivity.
Defined.

(** C9: when no row of the frame has the platform selected in the
    sidebar, line 25 still succeeds, the selection of line 36 is empty and
    the sidebar shows the warning "No posts found for <platform>." instead
    of a post. *)
Theorem C9_empty_platform_group_warns (df : DataFrame) (selected : string)
  (Hempty : forall r, In r df -> Platform r <> selected) :
  exists most_liked,
    most_liked_by_platform df = Some most_liked /\
    platform_post most_liked selected = [] /\
    sidebar_top_post most_liked selected =
      warning ("No posts found for " ++ selected ++ ".")%string.
Proof.
  destruct (most_liked_by_platform_spec df) as [ml [Hml F]].
  exists ml. split; [exact Hml|].
  assert (Hnil : platform_post ml selected = []).
  { unfold platform_post.
    destruct (filter _ ml) as [|e tl] eqn:Hf; [reflexivity|].
    assert (Hin : In e (e :: tl)) by (left; reflexivity).
    rewrite <- Hf in Hin. apply filter_In in Hin as [Hin Heq].
    apply String.eqb_eq in Heq.
    destruct (Forall2_in_r _ _ _ _ _ _ F Hin) as [k [_ [Hnth _]]].
    apply nth_error_In in Hnth. destruct (Hempty _ Hnth Heq). }
  split; [exact Hnil|].
  unfold sidebar_top_post. rewrite Hnil. reflexivity.
Qed.

Lemma C9_empty_platform_group_warns_witness :
  exists most_liked,
    most_liked_by_platform (load_data fixture5) = Some most_liked /\
    platform_post most_liked "Tiktok" = [] /\
    sidebar_top_post most_liked "Tiktok" = warning "No posts found for Tiktok.".
Proof.
  apply (C9_empty_platform_group_warns (load_data fixture5) "Tiktok").
  intros r Hin. simpl in Hin.
  repeat (destruct Hin as [<-|Hin]; [discriminate|]). contradiction.
Defined.

(** ** Mean likes *)

Section MeanLikes.

Lemma mean_Likes_by_keys key df :
  mean_Likes_by key df =
  map (fun k => (k, mean (map Likes (filter (fun r => cell_eqb (key r) k) df))))
      (sorted (unique (dropna (map key df)))).
Proof.
  unfold mean_Likes_by, groupby. rewrite map_map, group_keys_indexed.
  apply map_ext. intro k. simpl. unfold Likes_column.
  rewrite map_map. simpl.
  rewrite <- (map_map snd Likes), group_rows_indexed. reflexivity.
Qed.

Lemma map_fst_mean_Likes_by key df :
  map fst (mean_Likes_by key df) = sorted (unique (dropna (map key df))).
Proof.
  rewrite mean_Likes_by_keys, map_map. simpl. apply map_id.
Qed.

Lemma platform_rows_nonempty df p :
  In p (map Platform df) <->
  map Likes (filter (fun r => (Platform r =? p)%string) df) <> [].
Proof.
  split.
  - intros Hin Hnil. apply in_map_iff in Hin as [r [Hp Hin]].
    assert (H : In (Likes r) (map Likes (filter (fun r => (Platform r =? p)%string) df))).
    { apply in_map, filter_In. split; [exact Hin | apply String.eqb_eq, Hp]. }
    rewrite Hnil in H. exact H.
  - intro Hne.
    destruct (filter (fun r => (Platform r =? p)%string) df) as [|r tl] eqn:Hf;
      [simpl in Hne; congruence|].
    assert (H : In r (r :: tl)) by (left; reflexivity).
    rewrite <- Hf in H. apply filter_In in H as [Hin Heq].
    apply String.eqb_eq in Heq. apply in_map_iff. eauto.
Qed.

End MeanLikes.

(** [platform_likes] (line 91) has one entry per platform present in the
    frame and no other key; the entry of a present platform is the mean
    of the likes of the rows of that platform, and every key has at least
    one row, so no mean is taken over an empty group. *)
Lemma platform_likes_groups (df : DataFrame) (p : string) :
  let likes := map Likes (filter (fun r => (Platform r =? p)%string) df) in
  (In p (map Platform df) -> lookup p (platform_likes df) = Some (mean likes)) /\
  (In p (map fst (platform_likes df)) -> In p (map Platform df) /\ likes <> []) /\
  NoDup (map fst (platform_likes df)) /\
  (forall m, In (p, m) (platform_likes df) -> m <> None).
Proof.
  intro likes. unfold platform_likes.
  assert (Hkeys : forall k, In k (sorted (unique (dropna (map by_Platform df))))
                            <-> In k (map Platform df)).
  { intro k. rewrite in_labels, in_map_iff. unfold by_Platform.
    split; intros [r [H1 H2]]; exists r; split; congruence || assumption. }
  split; [|split; [|split]].
  - intro Hin. rewrite mean_Likes_by_keys, lookup_map.
    destruct (in_dec string_dec p _) as [_|Hn]; [|destruct Hn; apply Hkeys, Hin].
    reflexivity.
  - rewrite map_fst_mean_Likes_by, Hkeys. intro Hin.
    split; [exact Hin | apply platform_rows_nonempty, Hin].
  - rewrite map_fst_mean_Likes_by. apply NoDup_labels.
  - intros m Hin. rewrite mean_Likes_by_keys in Hin.
    apply in_map_iff in Hin as [k [Heq Hk]]. injection Heq as -> <-.
    simpl. fold likes. apply Hkeys, platform_rows_nonempty in Hk.
    fold likes in Hk. destruct likes; [congruence | discriminate].
Qed.

(** ** Platform case folding *)

(** ** Word cloud input *)

Section WordCloud.
Import PyStr PyStrFacts.

Lemma words_of_words x : Forall is_word (words_of x).
Proof.
  unfold words_of. apply Forall_forall. intros w Hin.
  apply filter_In in Hin as [Hin _].
  exact (proj1 (Forall_forall _ _) (split_words _) w Hin).
Qed.

Lemma split_preprocess_text x : split (preprocess_text x) = words_of x.
Proof. apply split_join_words, words_of_words. Qed.

Lemma split_all_text df :
  split (all_text df) = flat_map (fun r => words_of (Text r)) df.
Proof.
  unfold all_text. rewrite split_join, flat_map_concat_map, map_map.
  rewrite flat_map_concat_map. f_equal. apply map_ext.
  intro r. apply split_preprocess_text.
Qed.

Lemma words_of_split_then_lower x :
  words_of x = map lower (filter (fun w => 3 <? length w) (split (str x))).
Proof.
  unfold words_of. rewrite split_lower.
  induction (split (str x)) as [|w tl IH]; simpl; [reflexivity|].
  rewrite length_lower. destruct (3 <? length w); simpl; rewrite IH; reflexivity.
Qed.

End WordCloud.

(** C10: [preprocess_text] is a total function of the cell value: every
    cell, string or not, yields a string, whose tokens all have more than
    3 characters.  A null text becomes "nan", one token of length 3, which
    is dropped: the result is the empty string, and rows with a null text
    add no token to the word-cloud input. *)
Theorem C10_preprocess_text_total :
  (forall x : cell, exists s : string,
      preprocess_text x = s /\
      Forall (fun w => 3 < length w) (PyStr.split s)) /\
  str CNaN = "nan" /\
  PyStr.split (PyStr.lower (str CNaN)) = ["nan"] /\
  length "nan" = 3 /\
  preprocess_text CNaN = "" /\
  (forall df1 df2 r, Text r = CNaN ->
     PyStr.split (all_text (df1 ++ r :: df2)) = PyStr.split (all_text (df1 ++ df2))).
Proof.
  split; [|repeat split].
  - intro x. eexists. split; [reflexivity|].
    rewrite split_preprocess_text. unfold words_of.
    apply Forall_forall. intros w Hin.
    apply filter_In in Hin as [_ H]. apply Nat.ltb_lt, H.
  - intros df1 df2 r Hr. rewrite !split_all_text, !flat_map_app.
    simpl. rewrite Hr. reflexivity.
Qed.

(** ** Sentiment by country *)

Section DominantSentiment.

Lemma idxmax_from_app_greater (A : Type) (l : list (A * Z)) best bv last T :
  (bv < T)%Z -> (forall a v, In (a, v) l -> (v < T)%Z) ->
  idxmax_from best bv (l ++ [(last, T)]) = last.
Proof.
  revert best bv; induction l as [|[a v] tl IH]; intros best bv Hbv Hl; simpl.
  - destruct (Z.ltb_spec bv T); [reflexivity | lia].
  - destruct (bv <? v)%Z; apply IH; try assumption.
    + apply (Hl a v). left; reflexivity.
    + intros a' v' H. apply (Hl a' v'). right; exact H.
    + intros a' v' H. apply (Hl a' v'). right; exact H.
Qed.

Lemma setitem_new col v row :
  (forall c w, In (c, w) row -> c <> col) -> setitem col v row = row ++ [(col, v)].
Proof.
  induction row as [|[c w] tl IH]; simpl; intro H; [reflexivity|].
  destruct (String.eqb_spec c col) as [Heq|_].
  - destruct (H c w (or_introl eq_refl) Heq).
  - rewrite IH; [reflexivity|]. intros c' w' Hin. apply (H c' w'). right; exact Hin.
Qed.

(** Line 127 reads the column added by line 126: in a row where every
    sentiment count is below the total, the dominant label is
    "Total_Posts". *)
Lemma idxmax_with_Total_Posts (row : list (string * Z)) :
  row <> [] ->
  (forall c v, In (c, v) row ->
     c <> "Total_Posts" /\ (v < sum_values (map snd row))%Z) ->
  idxmax (setitem "Total_Posts" (sum_values (map snd row)) row) = Some "Total_Posts".
Proof.
  intros Hne H. rewrite setitem_new; [|intros c w Hin; apply (H c w Hin)].
  destruct row as [|[c v] tl]; [congruence|].
  simpl app. unfold idxmax. f_equal.
  apply idxmax_from_app_greater.
  - apply (H c v). left; reflexivity.
  - intros a w Hin. apply (H a w). right; exact Hin.
Qed.

End DominantSentiment.

(** C1 (the code does otherwise): for a country with one "Joy" and one
    "Anger" post the sentiment columns hold Anger = 1 and Joy = 1, whose
    first maximal column is "Anger"; line 127 takes [idxmax] after line
    126 added the column "Total_Posts" = 2, and yields "Total_Posts". *)
Theorem C1_dominant_sentiment_reads_Total_Posts :
  crosstab Country Sentiment two_sentiments =
    [("US", [("Anger", 1%Z); ("Joy", 1%Z)])] /\
  idxmax [("Anger", 1%Z); ("Joy", 1%Z)] = Some "Anger" /\
  country_sentiment two_sentiments =
    Some [mkCountryRow "US"
            [("Anger", 1%Z); ("Joy", 1%Z); ("Total_Posts", 2%Z)]
            "Total_Posts"].
Proof. repeat split. Qed.

(** ** Filters *)

(** The script computes every table from [df]: the values of the country
    and date widgets change nothing. *)
Lemma dashboard_ignores_filters csv sel sel' :
  selected_platform_radio sel = selected_platform_radio sel' ->
  dashboard csv sel = dashboard csv sel'.
Proof. intro H. unfold dashboard. rewrite H. reflexivity. Qed.

(** Line 57 starts again from [df]: the country predicate of line 50 is
    not part of [filtered_df]. *)
Lemma filtered_df_ignores_country df sel country :
  filtered_df df sel =
  filtered_df df (mkSelection (selected_platform_radio sel) country
                    (selected_year sel) (selected_month sel) (selected_day sel)).
Proof. reflexivity. Qed.

(** C2 (the code does otherwise): with the country "US" and the date
    2023/Jan/1 selected, one of the two rows satisfies the conjunction of
    the predicates and its mean likes are 10; the script's
    [platform_likes] is computed over both rows (mean 60/2), and the frame
    of line 57 keeps a row of another country than the selected one. *)
Theorem C2_filters_do_not_reach_tables :
  let sel := mkSelection "Twitter" "US" 2023 "Jan" 1 in
  rows_matching_selection (load_data two_countries) sel =
    [post "Twitter" "US" 2023 "Jan" 1 "Joy" 10] /\
  platform_likes (rows_matching_selection (load_data two_countries) sel) =
    [("Twitter", Some (10 # 1)%Q)] /\
  option_map view_platform_likes (dashboard two_countries sel) =
    Some [("Twitter", Some (60 # 2)%Q)] /\
  filtered_df (load_data two_countries) (mkSelection "Twitter" "UK" 2023 "Jan" 1) =
    [post "Twitter" "US" 2023 "Jan" 1 "Joy" 10].
Proof. repeat split. Qed.

(** ** Counting *)

Section Counting.

Lemma sum_values_map_add (X : Type) (f g : X -> Z) l :
  sum_values (map (fun k => (f k + g k)%Z) l) =
  (sum_values (map f l) + sum_values (map g l))%Z.
Proof. induction l as [|x tl IH]; simpl; [reflexivity | rewrite IH; lia]. Qed.

Lemma sum_values_map_ext (X : Type) (f g : X -> Z) l :
  (forall x, In x l -> f x = g x) -> sum_values (map f l) = sum_values (map g l).
Proof.
  intro H. f_equal. apply map_ext_in, H.
Qed.

Lemma length_filter_cons (X : Type) (P : X -> bool) x l :
  Z.of_nat (List.length (filter P (x :: l))) =
  ((if P x then 1 else 0) + Z.of_nat (List.length (filter P l)))%Z.
Proof. simpl. destruct (P x); simpl List.length; lia. Qed.

Lemma filter_andb (X : Type) (P Q : X -> bool) l :
  filter (fun x => P x && Q x) l = filter Q (filter P l).
Proof.
  induction l as [|x tl IH]; simpl; [reflexivity|].
  destruct (P x); simpl; [destruct (Q x)|]; rewrite IH; reflexivity.
Qed.

Lemma filter_comm (X : Type) (P Q : X -> bool) l :
  filter P (filter Q l) = filter Q (filter P l).
Proof.
  rewrite <- !filter_andb. apply filter_ext. intro x. apply andb_comm.
Qed.

Lemma length_filter_le (X : Type) (P : X -> bool) l :
  List.length (filter P l) <= List.length l.
Proof. induction l as [|x tl IH]; simpl; [|destruct (P x); simpl]; lia. Qed.

Lemma length_dropna_le col : List.length (dropna col) <= List.length col.
Proof.
  induction col as [|[v|] tl IH]; simpl; lia.
Qed.

(** Among distinct labels at most one equals the cell. *)
Lemma sum_cell_eqb o ks :
  NoDup ks ->
  sum_values (map (fun k => if cell_eqb o k then 1%Z else 0%Z) ks) =
  if isin o ks then 1%Z else 0%Z.
Proof.
  destruct o as [v|]; simpl.
  - induction 1 as [|k tl Hnotin _ IH]; simpl; [reflexivity|].
    rewrite IH. destruct (String.eqb_spec v k) as [->|Hne]; simpl; [|reflexivity].
    destruct (existsb (String.eqb k) tl) eqn:He; [|reflexivity].
    apply existsb_exists in He as [x [Hin Heq]].
    apply String.eqb_eq in Heq. subst x. contradiction.
  - intros _. induction ks as [|k tl IH]; simpl; [reflexivity | rewrite IH; reflexivity].
Qed.

(** The group sizes of distinct labels add up to the number of rows whose
    key is one of the labels. *)
Lemma sum_group_sizes (X : Type) (key : X -> option string) ks (l : list X) :
  NoDup ks ->
  sum_values (map (fun k => Z.of_nat (List.length (filter (fun x => cell_eqb (key x) k) l))) ks) =
  Z.of_nat (List.length (filter (fun x => isin (key x) ks) l)).
Proof.
  intro Hnd. induction l as [|x tl IH].
  - simpl. induction ks as [|k ks' IHk]; simpl; [reflexivity|].
    inversion Hnd; subst. rewrite IHk; [reflexivity | assumption].
  - rewrite length_filter_cons, <- IH, <- (sum_cell_eqb (key x) ks Hnd).
    rewrite <- sum_values_map_add. apply sum_values_map_ext.
    intros k _. apply length_filter_cons.
Qed.

End Counting.

(** ** Count matrices *)

Section CountMatrices.

Variables rowkey colkey : Post -> option string.
Variable df : DataFrame.

Let valid := filter (fun r => notna (rowkey r) && notna (colkey r)) df.
Let index := sorted (unique (dropna (map rowkey valid))).
Let columns := sorted (unique (dropna (map colkey valid))).

Lemma in_valid r :
  In r valid <-> In r df /\ (exists p, rowkey r = Some p) /\ (exists s, colkey r = Some s).
Proof.
  unfold valid. rewrite filter_In, andb_true_iff, !notna_true. tauto.
Qed.

Lemma crosstab_index : map fst (crosstab rowkey colkey df) = index.
Proof. unfold crosstab. rewrite map_map. simpl. apply map_id. Qed.

Lemma in_crosstab_index p :
  In p index <->
  exists r, In r df /\ rowkey r = Some p /\ exists s, colkey r = Some s.
Proof.
  unfold index. rewrite in_labels. split.
  - intros [r [Hin Hp]]. apply in_valid in Hin. exists r. tauto.
  - intros [r [Hin [Hp Hs]]]. exists r. split; [|exact Hp].
    apply in_valid. eauto.
Qed.

Lemma in_crosstab_columns s :
  In s columns <->
  exists r, In r df /\ colkey r = Some s /\ exists p, rowkey r = Some p.
Proof.
  unfold columns. rewrite in_labels. split.
  - intros [r [Hin Hs]]. apply in_valid in Hin. exists r. tauto.
  - intros [r [Hin [Hs Hp]]]. exists r. split; [|exact Hs].
    apply in_valid. eauto.
Qed.

(** Every cell of the matrix holds the number of rows with that pair of
    labels. *)
Lemma crosstab_cell p s :
  In p index -> In s columns ->
  matrix_cell (crosstab rowkey colkey df) p s = Some (pair_count rowkey colkey p s df).
Proof.
  intros Hp Hs. unfold matrix_cell, crosstab. fold valid. fold index. fold columns.
  rewrite (lookup_map _ (fun p => map (fun s => (s, pair_count rowkey colkey p s df)) columns)).
  destruct (in_dec string_dec p index); [|contradiction]. simpl.
  rewrite (lookup_map _ (fun s => pair_count rowkey colkey p s df)).
  destruct (in_dec string_dec s columns); [reflexivity|contradiction].
Qed.

Lemma crosstab_cell_outside p s :
  ~ In p index \/ ~ In s columns ->
  matrix_cell (crosstab rowkey colkey df) p s = None.
Proof.
  intro H. unfold matrix_cell, crosstab. fold valid. fold index. fold columns.
  rewrite (lookup_map _ (fun p => map (fun s => (s, pair_count rowkey colkey p s df)) columns)).
  destruct (in_dec string_dec p index); [|reflexivity]. simpl.
  rewrite (lookup_map _ (fun s => pair_count rowkey colkey p s df)).
  destruct (in_dec string_dec s columns); [tauto|reflexivity].
Qed.

(** The cells add up to the number of rows that have both labels. *)
Lemma crosstab_sum :
  matrix_sum (crosstab rowkey colkey df) = Z.of_nat (List.length valid).
Proof.
  unfold matrix_sum, crosstab. fold valid. fold index. fold columns.
  rewrite map_map. simpl.
  transitivity (sum_values (map (fun p => Z.of_nat (List.length
      (filter (fun r => cell_eqb (rowkey r) p)
              (filter (fun r => isin (colkey r) columns) df)))) index)).
  - apply sum_values_map_ext. intros p _. rewrite map_map. simpl.
    unfold pair_count. rewrite filter_comm.
    rewrite <- (sum_group_sizes _ colkey columns); [|apply NoDup_labels].
    apply sum_values_map_ext. intros s _.
    rewrite <- filter_andb. reflexivity.
  - rewrite (sum_group_sizes _ rowkey index); [|apply NoDup_labels].
    f_equal. f_equal. rewrite <- filter_andb. unfold valid.
    apply filter_ext_in. intros r Hin.
    apply eq_true_iff_eq.
    rewrite !andb_true_iff, !isin_true, !notna_true. split.
    + intros [[s [Hs _]] [p [Hp _]]]. eauto.
    + intros [[p Hp] [s Hs]]. split.
      * exists s. split; [exact Hs|]. apply in_crosstab_columns. eauto.
      * exists p. split; [exact Hp|]. apply in_crosstab_index. eauto.
Qed.

End CountMatrices.

(** C5, as stated, fails: a row without a sentiment label is in no cell
    of the pivot, so the cells add up to 0 while the frame has 1 row. *)
Lemma C5_sum_is_not_row_count :
  matrix_sum (sentiment_platform_counts unlabelled) <>
  Z.of_nat (List.length unlabelled).
Proof. discriminate. Qed.

(** C5, amended: the pivot of line 118 has a cell for every platform and
    sentiment that label some row with both labels present; the cell
    holds the number of rows with exactly that platform and sentiment (0
    when no row has the pair); the cells add up to the number of rows
    whose sentiment is not null, which is the total row count when every
    row has a sentiment. *)
Theorem C5_pivot_counts (df : DataFrame) (p s : string) :
  let m := sentiment_platform_counts df in
  let pair_rows :=
    filter (fun r => (Platform r =? p)%string && cell_eqb (Sentiment r) s) df in
  ((exists r, In r df /\ Platform r = p /\ Sentiment r <> None) ->
   (exists r, In r df /\ Sentiment r = Some s) ->
   matrix_cell m p s = Some (Z.of_nat (List.length pair_rows)) /\
   ((forall r, In r df -> ~ (Platform r = p /\ Sentiment r = Some s)) ->
    matrix_cell m p s = Some 0%Z)) /\
  matrix_sum m =
    Z.of_nat (List.length (filter (fun r => notna (Sentiment r)) df)) /\
  ((forall r, In r df -> Sentiment r <> None) ->
   matrix_sum m = Z.of_nat (List.length df)).
Proof.
  intros m pair_rows. subst m. unfold sentiment_platform_counts.
  assert (Hsum : matrix_sum (crosstab by_Platform Sentiment df) =
                 Z.of_nat (List.length (filter (fun r => notna (Sentiment r)) df))).
  { rewrite crosstab_sum. reflexivity. }
  split; [|split; [exact Hsum|]].
  - intros [r [Hin [Hp Hs]]] [r' [Hin' Hs']].
    assert (Hcell : matrix_cell (crosstab by_Platform Sentiment df) p s =
                    Some (Z.of_nat (List.length pair_rows))).
    { rewrite crosstab_cell; [reflexivity| |].
      - apply in_crosstab_index. exists r. split; [exact Hin|].
        split; [unfold by_Platform; congruence|].
        destruct (Sentiment r) as [v|]; [eauto|congruence].
      - apply in_crosstab_columns. exists r'. split; [exact Hin'|].
        split; [exact Hs' | unfold by_Platform; eauto]. }
    split; [exact Hcell|]. intro Hnone. rewrite Hcell.
    destruct pair_rows as [|x tl] eqn:Hrows; [reflexivity|].
    assert (Hx : In x pair_rows) by (rewrite Hrows; left; reflexivity).
    apply filter_In in Hx as [Hx Hb]. apply andb_true_iff in Hb as [Hb1 Hb2].
    apply String.eqb_eq in Hb1. apply cell_eqb_true in Hb2.
    destruct (Hnone x Hx (conj Hb1 Hb2)).
  - intro Hall. rewrite Hsum. f_equal. f_equal.
    rewrite <- (filter_ext_in (fun _ => true)).
    + clear. induction df as [|x tl IH]; simpl; congruence.
    + intros r Hin. symmetry. apply notna_true.
      specialize (Hall r Hin). destruct (Sentiment r) as [v|]; [eauto|congruence].
Qed.

(** ** Top-10 sentiments *)

Section TopSentiments.

Lemma insert_desc_perm x l : Permutation (insert_desc x l) (x :: l).
Proof.
  induction l as [|y tl IH]; simpl; [reflexivity|].
  destruct (snd x <? snd y)%Z; [|reflexivity].
  rewrite IH. apply perm_swap.
Qed.

Lemma sort_desc_perm l : Permutation (sort_desc l) l.
Proof.
  induction l as [|x tl IH]; simpl; [reflexivity|].
  rewrite insert_desc_perm, IH. reflexivity.
Qed.

Lemma insert_desc_sorted x l :
  StronglySorted desc l -> StronglySorted desc (insert_desc x l).
Proof.
  induction 1 as [|y tl Hs IH Hall]; simpl.
  - constructor; constructor.
  - destruct (Z.ltb_spec (snd x) (snd y)) as [Hlt|Hge].
    + constructor; [exact IH|].
      apply (Permutation_Forall (Permutation_sym (insert_desc_perm x tl))).
      constructor; [unfold desc; lia | exact Hall].
    + constructor; [constructor; assumption|].
      constructor; [exact Hge|].
      eapply Forall_impl; [|exact Hall]. unfold desc. intros z Hz. lia.
Qed.

Lemma sort_desc_sorted l : StronglySorted desc (sort_desc l).
Proof.
  induction l as [|x tl IH]; simpl; [constructor | apply insert_desc_sorted, IH].
Qed.

(** In a list sorted by decreasing value, what [firstn] keeps is at least
    as large as what it leaves. *)
Lemma firstn_above_skipn n l x y :
  StronglySorted desc l -> In x (firstn n l) -> In y (skipn n l) -> desc x y.
Proof.
  intro Hs; revert n; induction Hs as [|z tl Hs IH Hall]; intros [|n]; simpl;
    try contradiction.
  intros [<-|Hx] Hy.
  - apply (proj1 (Forall_forall _ _) Hall).
    rewrite <- (firstn_skipn n tl). apply in_or_app. right. exact Hy.
  - apply (IH n Hx Hy).
Qed.

Lemma NoDup_firstn (X : Type) n (l : list X) : NoDup l -> NoDup (firstn n l).
Proof.
  intro H. rewrite <- (firstn_skipn n l) in H.
  apply NoDup_app_remove_r in H. exact H.
Qed.

Lemma in_firstn (X : Type) n (l : list X) x : In x (firstn n l) -> In x l.
Proof.
  intro H. rewrite <- (firstn_skipn n l). apply in_or_app. left. exact H.
Qed.

Variable df : DataFrame.

Let values := dropna (map Sentiment df).
Let counted := map (fun k => (k, count k values)) (unique values).

Lemma value_counts_perm :
  Permutation (sort_desc (value_counts (map Sentiment df))) counted.
Proof.
  unfold value_counts. fold values. fold counted.
  rewrite !sort_desc_perm. reflexivity.
Qed.

Lemma map_fst_counted : map fst counted = unique values.
Proof. unfold counted. rewrite map_map. simpl. apply map_id. Qed.

Lemma in_SentimentCounts s c :
  In (s, c) (SentimentCounts df) -> c = count s values /\ In s values.
Proof.
  unfold SentimentCounts, nlargest. intro H. apply in_firstn in H.
  apply (Permutation_in _ value_counts_perm) in H.
  unfold counted in H. apply in_map_iff in H as [k [Heq Hk]].
  injection Heq as <- <-. split; [reflexivity | apply in_unique, Hk].
Qed.

Lemma NoDup_top_10_sentiments : NoDup (top_10_sentiments df).
Proof.
  unfold top_10_sentiments, SentimentCounts, nlargest.
  rewrite <- firstn_map. apply NoDup_firstn.
  apply (Permutation_NoDup (Permutation_sym (Permutation_map fst value_counts_perm))).
  rewrite map_fst_counted. apply NoDup_unique.
Qed.

Lemma length_top_10_sentiments :
  List.length (top_10_sentiments df) = Nat.min 10 (List.length (unique values)).
Proof.
  unfold top_10_sentiments, SentimentCounts, nlargest.
  rewrite length_map, length_firstn, (Permutation_length value_counts_perm).
  unfold counted. rewrite length_map. reflexivity.
Qed.

Lemma in_top_10_sentiments s :
  In s (top_10_sentiments df) -> In s values.
Proof.
  unfold top_10_sentiments. intro H. apply in_map_iff in H as [[k c] [<- Hin]].
  apply (in_SentimentCounts k c Hin).
Qed.

(** A label left out is no more frequent than a label taken. *)
Lemma top_10_sentiments_most_frequent s t :
  In s (top_10_sentiments df) -> In t values -> ~ In t (top_10_sentiments df) ->
  (count t values <= count s values)%Z.
Proof.
  unfold top_10_sentiments. intros Hs Ht Hnt.
  apply in_map_iff in Hs as [[k c] [Hk Hin]]. simpl in Hk. subst k.
  destruct (in_SentimentCounts s c Hin) as [-> _].
  unfold SentimentCounts, nlargest in *.
  set (sorted_counts := sort_desc (value_counts (map Sentiment df))) in *.
  assert (Hall : In (t, count t values) sorted_counts).
  { apply (Permutation_in _ (Permutation_sym value_counts_perm)).
    unfold counted. apply in_map_iff. exists t.
    split; [reflexivity | apply in_unique, Ht]. }
  rewrite <- (firstn_skipn 10 sorted_counts) in Hall.
  apply in_app_or in Hall as [Hfirst|Hrest].
  - destruct Hnt. apply in_map_iff. exists (t, count t values).
    split; [reflexivity | exact Hfirst].
  - exact (firstn_above_skipn 10 sorted_counts _ _ (sort_desc_sorted _) Hin Hrest).
Qed.

Lemma sum_SentimentCounts :
  (sum_values (map snd (SentimentCounts df)) <= Z.of_nat (List.length df))%Z.
Proof.
  assert (Hsnd : map snd (SentimentCounts df) =
                 map (fun k => count k values) (top_10_sentiments df)).
  { unfold top_10_sentiments. rewrite map_map. apply map_ext_in.
    intros [k c] Hin. simpl. apply (in_SentimentCounts k c Hin). }
  rewrite Hsnd.
  rewrite (sum_values_map_ext _ _
    (fun k => Z.of_nat (List.length (filter (fun x => cell_eqb (Some x) k) values)))).
  - rewrite (sum_group_sizes _ Some); [|apply NoDup_top_10_sentiments].
    pose proof (length_filter_le _ (fun x => isin (Some x) (top_10_sentiments df)) values).
    pose proof (length_dropna_le (map Sentiment df)) as Hd.
    rewrite length_map in Hd. fold values in Hd. lia.
  - intros k _. unfold count. f_equal. f_equal. apply filter_ext.
    intro x. simpl. apply String.eqb_sym.
Qed.

Lemma in_sentiment_filtered_df r :
  In r (sentiment_filtered_df df) <->
  In r df /\ exists s, Sentiment r = Some s /\ In s (top_10_sentiments df).
Proof. unfold sentiment_filtered_df. rewrite filter_In, isin_true. tauto. Qed.

Lemma sentiment_likes_keys :
  Permutation (map fst (sentiment_likes df)) (top_10_sentiments df).
Proof.
  unfold sentiment_likes. rewrite map_fst_mean_Likes_by.
  apply NoDup_Permutation;
    [apply NoDup_labels | apply NoDup_top_10_sentiments |].
  intro s. rewrite in_labels. split.
  - intros [r [Hin Hs]]. apply in_sentiment_filtered_df in Hin as [_ [s' [Hs' Hin]]].
    congruence.
  - intro Hs. pose proof (in_top_10_sentiments s Hs) as Hv.
    unfold values in Hv. apply in_dropna, in_map_iff in Hv as [r [Hr Hin]].
    exists r. split; [|exact Hr]. apply in_sentiment_filtered_df. eauto.
Qed.

End TopSentiments.


(** ** The defect of line 127, in general *)

Section DominantSentimentInGeneral.

Lemma Forall2_in_l (X Y : Type) (R : X -> Y -> Prop) l l' a :
  Forall2 R l l' -> In a l -> exists b, In b l' /\ R a b.
Proof.
  induction 1; simpl; [tauto|].
  intros [<-|Hin]; [eauto|]. destruct (IHForall2 Hin) as [b [? ?]]; eauto.
Qed.

Lemma setitem_nonempty col v row : setitem col v row <> [].
Proof.
  destruct row as [|[c w] tl]; simpl; [discriminate|].
  destruct (c =? col)%string; discriminate.
Qed.

(** Lines 125-128 never raise. *)
Lemma country_sentiment_spec df :
  exists rows,
    country_sentiment df = Some rows /\
    Forall2 country_row_of (crosstab Country Sentiment df) rows.
Proof.
  unfold country_sentiment.
  match goal with |- context [mapM ?f ?l] => destruct (mapM_total _ _ f l) as [rows Hrows] end.
  - intros cr _.
    destruct (idxmax_total _ (setitem "Total_Posts" (sum_values (map snd (snd cr))) (snd cr)))
      as [d Hd]; [apply setitem_nonempty|].
    rewrite Hd. simpl. eauto.
  - exists rows. split; [exact Hrows|].
    eapply Forall2_impl; [|exact (mapM_Forall2 _ _ _ _ _ Hrows)].
    intros cr row _ H. simpl in H.
    destruct (idxmax _) as [d|] eqn:Hd; simpl in H; [|discriminate].
    injection H as <-. repeat split. exact Hd.
Qed.

Lemma sum_values_member (X : Type) (f : X -> Z) l a :
  (forall x, In x l -> (0 <= f x)%Z) -> In a l -> (f a <= sum_values (map f l))%Z.
Proof.
  induction l as [|x tl IH]; simpl; [tauto|]. intros Hpos [->|Hin].
  - assert (0 <= sum_values (map f tl))%Z; [|lia].
    clear IH. induction tl as [|y tl IH]; simpl; [lia|].
    specialize (Hpos y (or_intror (or_introl eq_refl))) as Hy.
    assert (0 <= sum_values (map f tl))%Z; [|lia].
    apply IH. intros z [->|Hz]; apply Hpos; [left|right; right]; auto.
  - specialize (Hpos x (or_introl eq_refl)) as Hx.
    assert (f a <= sum_values (map f tl))%Z; [|lia].
    apply IH; [|exact Hin]. intros; apply Hpos; right; assumption.
Qed.

Lemma sum_values_two_members (X : Type) (f : X -> Z) l a b :
  (forall x, In x l -> (0 <= f x)%Z) -> In a l -> In b l -> a <> b ->
  (f a + f b <= sum_values (map f l))%Z.
Proof.
  induction l as [|x tl IH]; simpl; [tauto|]. intros Hpos Ha Hb Hab.
  assert (Htl : forall y, In y tl -> (0 <= f y)%Z)
    by (intros; apply Hpos; right; assumption).
  destruct Ha as [->|Ha], Hb as [->|Hb]; try congruence.
  - pose proof (sum_values_member _ f tl b Htl Hb). lia.
  - pose proof (sum_values_member _ f tl a Htl Ha). lia.
  - specialize (IH Htl Ha Hb Hab).
    specialize (Hpos x (or_introl eq_refl)). lia.
Qed.

Lemma pair_count_positive rowkey colkey p s df r :
  In r df -> rowkey r = Some p -> colkey r = Some s ->
  (1 <= pair_count rowkey colkey p s df)%Z.
Proof.
  intros Hin Hp Hs. unfold pair_count.
  destruct (filter _ df) as [|x tl] eqn:Hf; [|simpl List.length; lia].
  assert (H : In r (filter (fun r => cell_eqb (rowkey r) p && cell_eqb (colkey r) s) df)).
  { apply filter_In. split; [exact Hin|].
    apply andb_true_iff. split; apply cell_eqb_true; assumption. }
  rewrite Hf in H. destruct H.
Qed.

(** A country with posts of two different sentiments gets the dominant
    label "Total_Posts" (no sentiment being spelled that way). *)
Lemma country_with_two_sentiments_gets_Total_Posts df c s1 s2 r1 r2 :
  (forall r, In r df -> Sentiment r <> Some "Total_Posts") ->
  In r1 df -> Country r1 = Some c -> Sentiment r1 = Some s1 ->
  In r2 df -> Country r2 = Some c -> Sentiment r2 = Some s2 ->
  s1 <> s2 ->
  exists rows row,
    country_sentiment df = Some rows /\ In row rows /\
    row_Country row = c /\ Dominant_Sentiment row = "Total_Posts".
Proof.
  intros Hlabel Hin1 Hc1 Hs1 Hin2 Hc2 Hs2 Hne.
  destruct (country_sentiment_spec df) as [rows [Hrows F]].
  set (columns := sorted (unique (dropna (map Sentiment
         (filter (fun r => notna (Country r) && notna (Sentiment r)) df))))).
  set (cells := map (fun s => (s, pair_count Country Sentiment c s df)) columns).
  assert (Hcr : In (c, cells) (crosstab Country Sentiment df)).
  { unfold crosstab. apply in_map_iff. exists c. split; [reflexivity|].
    apply in_crosstab_index. eauto. }
  destruct (Forall2_in_l _ _ _ _ _ _ F Hcr) as [row [Hrow [HC [Hcounts Hdom]]]].
  exists rows, row. split; [exact Hrows|]. split; [exact Hrow|].
  split; [exact HC|]. simpl in Hcounts.
  assert (Hcol1 : In s1 columns) by (apply in_crosstab_columns; eauto).
  assert (Hcol2 : In s2 columns) by (apply in_crosstab_columns; eauto).
  assert (Hsum : map snd cells = map (fun s => pair_count Country Sentiment c s df) columns).
  { unfold cells. rewrite map_map. reflexivity. }
  rewrite Hcounts, idxmax_with_Total_Posts in Hdom.
  - congruence.
  - unfold cells. destruct columns; [destruct Hcol1 | discriminate].
  - intros s v Hin. unfold cells in Hin. apply in_map_iff in Hin as [s' [Heq Hs']].
    injection Heq as <- <-. split.
    + apply in_crosstab_columns in Hs' as [r [Hr [Hsr _]]].
      intros ->. exact (Hlabel r Hr Hsr).
    + rewrite Hsum.
      assert (Hpos : forall x, In x columns -> (0 <= pair_count Country Sentiment c x df)%Z)
        by (intros; unfold pair_count; lia).
      pose proof (pair_count_positive Country Sentiment c s1 df r1 Hin1 Hc1 Hs1).
      pose proof (pair_count_positive Country Sentiment c s2 df r2 Hin2 Hc2 Hs2).
      destruct (string_dec s' s1) as [->|Hd].
      * pose proof (sum_values_two_members _ _ columns s1 s2 Hpos Hcol1 Hcol2 Hne) as Htwo.
        cbv beta in Htwo. lia.
      * pose proof (sum_values_two_members _ _ columns s' s1 Hpos Hs' Hcol1 Hd) as Htwo.
        cbv beta in Htwo. lia.
Qed.

End DominantSentimentInGeneral.

(** ** The five-row scenario *)

Example fixture5_scenario :
  option_map view_sidebar (dashboard fixture5 (mkSelection "Twitter" "US" 2023 "Jan" 1))
    = Some (success "Twitter" 50 (CStr "") "") /\
  posts_by_platform (load_data fixture5)
    = [("Twitter", 2%Z); ("Facebook", 2%Z); ("Instagram", 1%Z)] /\
  lookup "Facebook" (platform_likes (load_data fixture5)) = Some (Some (25 # 2)%Q) /\
  matrix_cell (sentiment_platform_counts (load_data fixture5)) "Twitter" "Joy" = Some 2%Z.
Proof. repeat split. Qed.


(** * Further properties of the script *)

(** ** Loading (lines 13-17) *)

Section Loading.
Import PyStr PyStrFacts.

Lemma in_load_data csv r :
  In r csv -> In (with_Platform (title (Platform r)) r) (load_data csv).
Proof. intro H. unfold load_data. apply in_map_iff. eauto. Qed.

End Loading.


(** X2: two rows of the file whose platforms differ only in the case of
    their ASCII letters are, after loading, in one and the same
    [groupby("Platform")] group. *)
Theorem X2_case_variants_share_a_group (csv : DataFrame) (r1 r2 : Post)
  (H1 : In r1 csv) (H2 : In r2 csv)
  (Hcase : PyStr.lower (Platform r1) = PyStr.lower (Platform r2)) :
  exists k rows r1' r2',
    In (k, rows) (groupby by_Platform (indexed (load_data csv))) /\
    In r1' (map snd rows) /\ In r2' (map snd rows) /\
    r1' = with_Platform k r1 /\ r2' = with_Platform k r2.
Proof.
  set (k := PyStr.title (Platform r1)).
  assert (Hk2 : PyStr.title (Platform r2) = k)
    by (symmetry; apply PyStrFacts.title_case_insensitive, Hcase).
  exists k, (group_rows by_Platform k (indexed (load_data csv))),
         (with_Platform k r1), (with_Platform k r2).
  split; [|split; [|split; [|split; reflexivity]]].
  - unfold groupby. apply in_map_iff. exists k. split; [reflexivity|].
    apply in_platform_keys, in_map_iff. exists (with_Platform k r1).
    split; [reflexivity | apply in_load_data, H1].
  - rewrite group_rows_indexed. apply filter_In.
    split; [apply in_load_data, H1 | apply cell_eqb_true; reflexivity].
  - rewrite group_rows_indexed. apply filter_In. split.
    + rewrite <- Hk2. apply in_load_data, H2.
    + apply cell_eqb_true; reflexivity.
Qed.

Lemma X2_case_variants_share_a_group_witness :
  exists k rows r1' r2',
    In (k, rows) (groupby by_Platform (indexed (load_data fixture5))) /\
    In r1' (map snd rows) /\ In r2' (map snd rows) /\
    r1' = with_Platform k (post "Twitter" "US" 2023 "Jan" 1 "Joy" 10) /\
    r2' = with_Platform k (post "twitter" "US" 2023 "Jan" 1 "Joy" 50).
Proof.
  apply (X2_case_variants_share_a_group fixture5).
  - simpl. left. reflexivity.
  - simpl. right. left. reflexivity.
  - reflexivity.
Defined.

(** ** Word cloud input (lines 246-252) *)

Section Preprocessing.
Import PyStr PyStrFacts.

Lemma lower_idempotent s : lower (lower s) = lower s.
Proof. induction s as [|c tl IH]; simpl; [|rewrite lower_lower_char, IH]; reflexivity. Qed.

Lemma lower_join l : lower (join " " l) = join " " (map lower l).
Proof.
  unfold join. induction l as [|x xs IH]; [reflexivity|].
  simpl. destruct xs as [|y tl]; [reflexivity|].
  rewrite lower_app. simpl in *. rewrite IH. reflexivity.
Qed.

Lemma words_of_lower x : map lower (words_of x) = words_of x.
Proof.
  rewrite words_of_split_then_lower, map_map.
  apply map_ext. intro w. apply lower_idempotent.
Qed.

Lemma lower_preprocess_text x : lower (preprocess_text x) = preprocess_text x.
Proof. unfold preprocess_text. rewrite lower_join, words_of_lower. reflexivity. Qed.

Lemma filter_all (X : Type) (P : X -> bool) l :
  (forall x, In x l -> P x = true) -> filter P l = l.
Proof.
  induction l as [|x tl IH]; simpl; intro H; [reflexivity|].
  rewrite (H x (or_introl eq_refl)), IH; [reflexivity|].
  intros; apply H; right; assumption.
Qed.

End Preprocessing.

(** X3: [preprocess_text] is idempotent: preprocessing its own output
    gives that output again. *)
Theorem X3_preprocess_text_idempotent (x : cell) :
  preprocess_text (CStr (preprocess_text x)) = preprocess_text x.
Proof.
  assert (Hwords : words_of (CStr (preprocess_text x)) = words_of x).
  { unfold words_of at 1. simpl str.
    rewrite lower_preprocess_text, split_preprocess_text.
    apply filter_all. intros w Hin. unfold words_of in Hin.
    apply filter_In in Hin. tauto. }
  unfold preprocess_text at 1. rewrite Hwords. reflexivity.
Qed.

(** Lower-casing the text handed to the word cloud changes nothing. *)
Lemma lower_all_text (df : DataFrame) :
  PyStr.lower (all_text df) = all_text df.
Proof.
  unfold all_text. rewrite lower_join, map_map. f_equal.
  apply map_ext. intro r. apply lower_preprocess_text.
Qed.

(** ** Platforms and top posts (lines 22-46) *)

Section Platforms.

Lemma insert_sorted_Sorted x l :
  Sorted ascending l -> Sorted ascending (insert_sorted x l).
Proof.
  induction 1 as [|y tl Hs IH Hhd]; simpl.
  - constructor; constructor.
  - destruct (String.leb x y) eqn:Hxy.
    + constructor; [constructor; assumption | constructor; exact Hxy].
    + assert (Hyx : ascending y x).
      { destruct (String.leb_total x y) as [H|H]; [congruence | exact H]. }
      constructor; [exact IH|].
      destruct tl as [|z tl']; simpl; [constructor; exact Hyx|].
      destruct (String.leb x z); constructor; [exact Hyx|].
      inversion Hhd; assumption.
Qed.

Lemma sorted_Sorted l : Sorted ascending (sorted l).
Proof.
  induction l as [|x tl IH]; simpl; [constructor | apply insert_sorted_Sorted, IH].
Qed.

Lemma dropna_by_Platform df : dropna (map by_Platform df) = map Platform df.
Proof. induction df as [|r tl IH]; simpl; [|rewrite IH]; reflexivity. Qed.

Lemma platform_keys df : group_keys by_Platform (indexed df) = unique_platforms df.
Proof. rewrite group_keys_indexed, dropna_by_Platform. reflexivity. Qed.

(** The one entry of line 25 that line 36 selects for a present platform. *)
Lemma platform_post_entry df most_liked P :
  Forall2 (top_of df) (group_keys by_Platform (indexed df)) most_liked ->
  In P (map Platform df) ->
  exists entry, platform_post most_liked P = [entry] /\ top_of df P entry.
Proof.
  intros F HP. pose proof (most_liked_platforms _ _ F) as Hkeys.
  destruct (filter_key_singleton _ (fun ir : nat * Post => Platform (snd ir)) most_liked P)
    as [entry [Hf [Hin HPe]]].
  - rewrite Hkeys. unfold group_keys. apply NoDup_labels.
  - rewrite Hkeys. apply in_platform_keys. exact HP.
  - exists entry. split; [exact Hf|].
    destruct (Forall2_in_r _ _ _ _ _ _ F Hin) as [k [_ Htop]].
    destruct Htop as [Hnth [Hk Hmax]].
    assert (Hkp : k = P) by congruence. rewrite Hkp in Hmax.
    split; [exact Hnth|]. split; [exact HPe | exact Hmax].
Qed.

End Platforms.

(** X5: the options of the platform radio (line 22) are in ascending
    order, without repeats, and are exactly the platforms of the frame. *)
Theorem X5_unique_platforms_sorted (df : DataFrame) :
  Sorted ascending (unique_platforms df) /\
  NoDup (unique_platforms df) /\
  (forall p, In p (unique_platforms df) <-> exists r, In r df /\ Platform r = p).
Proof.
  unfold unique_platforms. split; [apply sorted_Sorted|].
  split; [apply NoDup_sorted, NoDup_unique|].
  intro p. rewrite in_sorted, in_unique, in_map_iff.
  split; intros [r [Ha Hb]]; exists r; split; assumption.
Qed.

(** X6: the top posts of line 25 and the means of line 91 come one per
    platform, in the order of the radio options. *)
Theorem X6_tables_follow_the_radio_order (df : DataFrame) :
  (exists most_liked,
     most_liked_by_platform df = Some most_liked /\
     map (fun ir => Platform (snd ir)) most_liked = unique_platforms df) /\
  map fst (platform_likes df) = unique_platforms df.
Proof.
  split.
  - destruct (most_liked_by_platform_spec df) as [ml [Hml F]].
    exists ml. split; [exact Hml|].
    rewrite (most_liked_platforms _ _ F). apply platform_keys.
  - unfold platform_likes. rewrite map_fst_mean_Likes_by, dropna_by_Platform.
    reflexivity.
Qed.

(** X7: for every option of the platform radio the sidebar shows a post
    (never the warning): a row of the frame with the selected platform
    whose likes no row of that platform exceeds. *)
Theorem X7_sidebar_shows_top_post (df : DataFrame) (selected : string)
  (Hoption : In selected (unique_platforms df)) :
  exists most_liked i r,
    most_liked_by_platform df = Some most_liked /\
    sidebar_top_post most_liked selected =
      success selected (Likes r) (Text r) (User r) /\
    nth_error df i = Some r /\ Platform r = selected /\
    forall r', In r' df -> Platform r' = selected -> (Likes r' <= Likes r)%Z.
Proof.
  destruct (most_liked_by_platform_spec df) as [ml [Hml F]].
  assert (HP : In selected (map Platform df)).
  { unfold unique_platforms in Hoption.
    apply -> in_sorted in Hoption. apply -> in_unique in Hoption.
    exact Hoption. }
  destruct (platform_post_entry df ml selected F HP) as [[i r] [Hpost [Hnth [Hp Hmax]]]].
  exists ml, i, r. split; [exact Hml|].
  split; [unfold sidebar_top_post; rewrite Hpost; reflexivity|].
  split; [exact Hnth|]. split; [exact Hp | exact Hmax].
Qed.

Lemma X7_sidebar_shows_top_post_witness :
  exists most_liked i r,
    most_liked_by_platform (load_data fixture5) = Some most_liked /\
    sidebar_top_post most_liked "Facebook" =
      success "Facebook" (Likes r) (Text r) (User r) /\
    nth_error (load_data fixture5) i = Some r /\ Platform r = "Facebook" /\
    forall r', In r' (load_data fixture5) -> Platform r' = "Facebook" ->
               (Likes r' <= Likes r)%Z.
Proof.
  apply (X7_sidebar_shows_top_post (load_data fixture5) "Facebook").
  vm_compute. left. reflexivity.
Defined.

(** ** First maximum *)

Section FirstMaximum.

(** [idxmax] splits the series at the label it returns: smaller values
    before it, no larger value after it. *)
Lemma idxmax_from_split (A : Type) (l : list (A * Z)) best bv :
  (idxmax_from best bv l = best /\ forall x w, In (x, w) l -> (w <= bv)%Z) \/
  (exists l1 v l2,
     l = l1 ++ (idxmax_from best bv l, v) :: l2 /\ (bv < v)%Z /\
     (forall x w, In (x, w) l1 -> (w < v)%Z) /\
     (forall x w, In (x, w) l2 -> (w <= v)%Z)).
Proof.
  revert best bv; induction l as [|[a0 v0] tl IH]; intros best bv; simpl.
  - left. split; [reflexivity | tauto].
  - destruct (Z.ltb_spec bv v0) as [Hlt|Hge].
    + right. destruct (IH a0 v0) as [[-> Hall]|[l1 [v [l2 [Heq [Hv [H1 H2]]]]]]].
      * exists [], v0, tl. simpl. repeat split; [assumption | tauto | assumption].
      * exists ((a0, v0) :: l1), v, l2. simpl. split; [f_equal; exact Heq|].
        split; [lia|]. split; [|exact H2].
        intros x w [H|H]; [injection H as _ <-; lia | apply (H1 x w H)].
    + destruct (IH best bv) as [[-> Hall]|[l1 [v [l2 [Heq [Hv [H1 H2]]]]]]].
      * left. split; [reflexivity|].
        intros x w [H|H]; [injection H as _ <-; lia | apply (Hall x w H)].
      * right. exists ((a0, v0) :: l1), v, l2. simpl. split; [f_equal; exact Heq|].
        split; [lia|]. split; [|exact H2].
        intros x w [H|H]; [injection H as _ <-; lia | apply (H1 x w H)].
Qed.

Lemma idxmax_split (A : Type) (l : list (A * Z)) a :
  idxmax l = Some a ->
  exists l1 v l2,
    l = l1 ++ (a, v) :: l2 /\
    (forall x w, In (x, w) l1 -> (w < v)%Z) /\
    (forall x w, In (x, w) l2 -> (w <= v)%Z).
Proof.
  destruct l as [|[a0 v0] tl]; simpl; [discriminate|].
  intro H. injection H as <-.
  destruct (idxmax_from_split _ tl a0 v0) as [[-> Hall]|[l1 [v [l2 [Heq [Hv [H1 H2]]]]]]].
  - exists [], v0, tl. simpl. repeat split; [tauto | assumption].
  - exists ((a0, v0) :: l1), v, l2. simpl. split; [f_equal; exact Heq|].
    split; [|exact H2].
    intros x w [H|H]; [injection H as _ <-; lia | apply (H1 x w H)].
Qed.

Lemma idxmax_from_keeps (A : Type) (l : list (A * Z)) best bv :
  (forall x w, In (x, w) l -> (w <= bv)%Z) -> idxmax_from best bv l = best.
Proof.
  revert best bv; induction l as [|[a v] tl IH]; intros best bv H; simpl; [reflexivity|].
  destruct (Z.ltb_spec bv v) as [Hlt|_].
  - specialize (H a v (or_introl eq_refl)). lia.
  - apply IH. intros x w Hin. apply (H x w). right; exact Hin.
Qed.

Lemma idxmax_from_first (A : Type) (l1 l2 : list (A * Z)) best bv a v :
  (bv < v)%Z ->
  (forall x w, In (x, w) l1 -> (w < v)%Z) ->
  (forall x w, In (x, w) l2 -> (w <= v)%Z) ->
  idxmax_from best bv (l1 ++ (a, v) :: l2) = a.
Proof.
  revert best bv; induction l1 as [|[a0 v0] tl IH]; intros best bv Hbv H1 H2; simpl.
  - destruct (Z.ltb_spec bv v); [|lia]. apply idxmax_from_keeps, H2.
  - assert (Htl : forall x w, In (x, w) tl -> (w < v)%Z)
      by (intros x w Hin; apply (H1 x w); right; exact Hin).
    specialize (H1 a0 v0 (or_introl eq_refl)).
    destruct (bv <? v0)%Z; apply IH; assumption.
Qed.

(** The converse: the first entry that no earlier entry reaches and no
    later entry exceeds is the one [idxmax] returns. *)
Lemma idxmax_first (A : Type) (l1 l2 : list (A * Z)) a v :
  (forall x w, In (x, w) l1 -> (w < v)%Z) ->
  (forall x w, In (x, w) l2 -> (w <= v)%Z) ->
  idxmax (l1 ++ (a, v) :: l2) = Some a.
Proof.
  intros H1 H2. destruct l1 as [|[a0 v0] tl]; simpl.
  - f_equal. apply idxmax_from_keeps, H2.
  - f_equal. apply idxmax_from_first; [|  |exact H2].
    + apply (H1 a0 v0). left; reflexivity.
    + intros x w Hin. apply (H1 x w). right; exact Hin.
Qed.

Lemma combine_seq_sorted (X : Type) (l : list X) a :
  StronglySorted by_label (combine (seq a (List.length l)) l).
Proof.
  revert a; induction l as [|x tl IH]; intro a; simpl; constructor; [apply IH|].
  apply Forall_forall. intros [i y] Hin.
  apply in_combine_seq in Hin as [Hle _]. unfold by_label. simpl. lia.
Qed.

Lemma StronglySorted_filter (X : Type) (R : X -> X -> Prop) (P : X -> bool) l :
  StronglySorted R l -> StronglySorted R (filter P l).
Proof.
  induction 1 as [|x tl Hs IH Hall]; simpl; [constructor|].
  destruct (P x); [|exact IH]. constructor; [exact IH|].
  apply Forall_forall. intros y Hy. apply filter_In in Hy as [Hy _].
  exact (proj1 (Forall_forall _ _) Hall y Hy).
Qed.

Lemma Likes_column_sorted rows :
  StronglySorted by_label rows -> StronglySorted by_label (Likes_column rows).
Proof.
  induction 1 as [|x tl Hs IH Hall]; simpl; constructor; [exact IH|].
  apply Forall_forall. intros y Hy. apply in_map_iff in Hy as [z [<- Hz]].
  exact (proj1 (Forall_forall _ _) Hall z Hz).
Qed.

(** In a series in label order, an entry with a smaller label stands
    before the entry with the larger one. *)
Lemma sorted_before (V : Type) (l1 l2 : list (nat * V)) x y :
  StronglySorted by_label (l1 ++ x :: l2) ->
  In y (l1 ++ x :: l2) -> fst y < fst x -> In y l1.
Proof.
  induction l1 as [|z tl IH]; simpl; intros Hs Hin Hlt.
  - inversion Hs as [|? ? _ Hall]; subst. destruct Hin as [->|Hin]; [lia|].
    pose proof (proj1 (Forall_forall _ _) Hall y Hin) as H.
    unfold by_label in H. lia.
  - inversion Hs as [|? ? Hs' _]; subst.
    destruct Hin as [->|Hin]; [left; reflexivity | right; apply (IH Hs' Hin Hlt)].
Qed.

End FirstMaximum.

(** X8: among the rows of a platform that share the maximal likes, line
    25 takes the first one: every earlier row of the platform has
    strictly fewer likes than the top post. *)
Theorem X8_top_post_is_first_maximum (df : DataFrame) (P : string)
  (HP : In P (map Platform df)) :
  exists most_liked i r,
    most_liked_by_platform df = Some most_liked /\
    platform_post most_liked P = [(i, r)] /\
    forall j r', j < i -> nth_error df j = Some r' -> Platform r' = P ->
                 (Likes r' < Likes r)%Z.
Proof.
  unfold most_liked_by_platform, Likes_idxmax_by_Platform, groupby.
  destruct (most_liked_by_platform_spec df) as [ml [Hml F]].
  destruct (platform_post_entry df ml P F HP) as [[i r] [Hpost [Hnth [Hp _]]]].
  simpl in Hnth, Hp.
  exists ml, i, r. split; [exact Hml|]. split; [exact Hpost|].
  (* the label of the entry is what idxmax gave for the group of P *)
  assert (Hidx : idxmax (Likes_column (group_rows by_Platform P (indexed df))) = Some i).
  { unfold most_liked_by_platform, Likes_idxmax_by_Platform, groupby in Hml.
    destruct (mapM _ (map _ _)) as [s|] eqn:Hs; simpl in Hml; [|discriminate].
    pose proof (Forall2_map_l _ _ _ _ _ _ _ (mapM_Forall2 _ _ _ _ _ Hs)) as F1.
    pose proof (Forall2_map_l _ _ _ _ _ _ _ (mapM_Forall2 _ _ _ _ _ Hml)) as F2.
    pose proof (Forall2_compose _ _ _ _ _ _ _ _ F1 F2) as F3.
    assert (Hin : In (i, r) ml).
    { assert (H : In (i, r) (platform_post ml P)) by (rewrite Hpost; left; reflexivity).
      apply filter_In in H. tauto. }
    destruct (Forall2_in_r _ _ _ _ _ _ F3 Hin) as [k [_ [e [He Hloc]]]].
    simpl in He, Hloc.
    destruct (idxmax _) as [i'|] eqn:Hmax; simpl in He; [|discriminate].
    injection He as <-. simpl in Hloc.
    destruct (nth_error df i') as [r0|] eqn:Hn; simpl in Hloc; [|discriminate].
    injection Hloc as -> ->.
    destruct (idxmax_group_top df k i r Hmax Hn) as [_ [Hk _]].
    simpl in Hk. congruence. }
  apply idxmax_split in Hidx as [l1 [v [l2 [Heq [H1 _]]]]].
  assert (Hv : v = Likes r).
  { assert (Hin : In (i, v) (Likes_column (group_rows by_Platform P (indexed df))))
      by (rewrite Heq; apply in_or_app; right; left; reflexivity).
    apply in_Likes_column in Hin as [r0 [Hin ->]].
    apply in_group_rows in Hin as [Hn _]. congruence. }
  intros j r' Hlt Hj Hp'.
  assert (Hin : In (j, Likes r') (Likes_column (group_rows by_Platform P (indexed df)))).
  { apply in_Likes_column. exists r'. split; [|reflexivity].
    apply in_group_rows. split; [exact Hj | unfold by_Platform; congruence]. }
  assert (Hs : StronglySorted by_label
                 (Likes_column (group_rows by_Platform P (indexed df)))).
  { apply Likes_column_sorted. unfold group_rows.
    apply StronglySorted_filter. unfold indexed. apply combine_seq_sorted. }
  rewrite Heq in Hin, Hs.
  pose proof (sorted_before _ l1 l2 (i, v) (j, Likes r') Hs Hin Hlt) as Hbefore.
  rewrite <- Hv. apply (H1 j _ Hbefore).
Qed.

Lemma X8_top_post_is_first_maximum_witness :
  exists most_liked i r,
    most_liked_by_platform (load_data fixture5) = Some most_liked /\
    platform_post most_liked "Twitter" = [(i, r)] /\
    forall j r', j < i -> nth_error (load_data fixture5) j = Some r' ->
                 Platform r' = "Twitter" -> (Likes r' < Likes r)%Z.
Proof.
  apply (X8_top_post_is_first_maximum (load_data fixture5) "Twitter").
  simpl. left. reflexivity.
Defined.

(** ** Widget options (lines 49-55) *)

Section Widgets.

Lemma fold_min_le l x :
  (fold_left Z.min l x <= x)%Z /\
  (forall y, In y l -> (fold_left Z.min l x <= y)%Z) /\
  In (fold_left Z.min l x) (x :: l).
Proof.
  revert x; induction l as [|a tl IH]; intro x; simpl.
  - split; [lia|]. split; [tauto | left; reflexivity].
  - destruct (IH (Z.min x a)) as [H1 [H2 H3]]. split; [lia|]. split.
    + intros y [<-|Hy]; [lia | apply (H2 y Hy)].
    + destruct H3 as [H3|H3]; [|right; right; exact H3].
      destruct (Z.min_spec x a) as [[_ Hm]|[_ Hm]];
        [left | right; left]; congruence.
Qed.

Lemma fold_max_ge l x :
  (x <= fold_left Z.max l x)%Z /\
  (forall y, In y l -> (y <= fold_left Z.max l x)%Z) /\
  In (fold_left Z.max l x) (x :: l).
Proof.
  revert x; induction l as [|a tl IH]; intro x; simpl.
  - split; [lia|]. split; [tauto | left; reflexivity].
  - destruct (IH (Z.max x a)) as [H1 [H2 H3]]. split; [lia|]. split.
    + intros y [<-|Hy]; [lia | apply (H2 y Hy)].
    + destruct H3 as [H3|H3]; [|right; right; exact H3].
      destruct (Z.max_spec x a) as [[_ Hm]|[_ Hm]];
        [right; left | left]; congruence.
Qed.

End Widgets.

(** X9: every option of the country selectbox (line 49) is the country of
    some row, no option repeats, and selecting it makes the frame of line
    50 non-empty: it holds exactly the rows of that country. *)
Theorem X9_country_options_select_rows (df : DataFrame) (sel : Selection)
  (Hoption : In (selected_country sel) (country_options df)) :
  NoDup (country_options df) /\
  country_filtered_df df sel <> [] /\
  forall r, In r (country_filtered_df df sel) <->
            In r df /\ Country r = Some (selected_country sel).
Proof.
  split; [apply NoDup_unique|].
  assert (Hrows : forall r, In r (country_filtered_df df sel) <->
                            In r df /\ Country r = Some (selected_country sel)).
  { intro r. unfold country_filtered_df. rewrite filter_In, cell_eqb_true. tauto. }
  split; [|exact Hrows].
  unfold country_options in Hoption.
  apply -> in_unique in Hoption. apply -> in_dropna in Hoption.
  apply in_map_iff in Hoption as [r [Hc Hin]].
  intro Hnil. assert (H : In r (country_filtered_df df sel)) by (apply Hrows; tauto).
  rewrite Hnil in H. exact H.
Qed.

Lemma X9_country_options_select_rows_witness :
  NoDup (country_options fixture5) /\
  country_filtered_df fixture5 (mkSelection "Twitter" "UK" 2023 "Jan" 1) <> [] /\
  forall r, In r (country_filtered_df fixture5 (mkSelection "Twitter" "UK" 2023 "Jan" 1)) <->
            In r fixture5 /\ Country r = Some "UK".
Proof.
  apply (X9_country_options_select_rows fixture5 (mkSelection "Twitter" "UK" 2023 "Jan" 1)).
  simpl. right. left. reflexivity.
Defined.

(** X10: the year slider (line 53) cannot be built for an empty frame:
    [int] of the missing minimum raises.  For a frame with rows it
    ranges from the smallest to the largest year of the frame, both of
    them years of some row, every row lies in the range, and it starts at
    the largest year. *)
Theorem X10_year_slider_bounds (r0 : Post) (rest : DataFrame) :
  year_slider [] = None /\
  exists s,
    year_slider (r0 :: rest) = Some s /\
    value s = max_value s /\
    (forall r, In r (r0 :: rest) -> (min_value s <= Year r <= max_value s)%Z) /\
    (exists r, In r (r0 :: rest) /\ Year r = min_value s) /\
    (exists r, In r (r0 :: rest) /\ Year r = max_value s).
Proof.
  split; [reflexivity|].
  unfold year_slider. simpl.
  destruct (fold_min_le (map Year rest) (Year r0)) as [L1 [L2 L3]].
  destruct (fold_max_ge (map Year rest) (Year r0)) as [U1 [U2 U3]].
  eexists. split; [reflexivity|]. simpl. split; [reflexivity|].
  split; [|split].
  - intros r [<-|Hin]; [lia|].
    specialize (L2 (Year r) (in_map Year _ _ Hin)).
    specialize (U2 (Year r) (in_map Year _ _ Hin)). lia.
  - change (Year r0 :: map Year rest) with (map Year (r0 :: rest)) in L3.
    apply in_map_iff in L3 as [r [Hr Hin]]. eauto.
  - change (Year r0 :: map Year rest) with (map Year (r0 :: rest)) in U3.
    apply in_map_iff in U3 as [r [Hr Hin]]. eauto.
Qed.

(** ** Sentiment tables (lines 63-114) *)

Section SentimentTables.

Lemma StronglySorted_firstn (X : Type) (R : X -> X -> Prop) n l :
  StronglySorted R l -> StronglySorted R (firstn n l).
Proof.
  intro Hs; revert n; induction Hs as [|x tl Hs IH Hall]; intros [|n]; simpl;
    try constructor.
  - apply IH.
  - apply Forall_forall. intros y Hy. apply in_firstn in Hy.
    exact (proj1 (Forall_forall _ _) Hall y Hy).
Qed.

Lemma length_filter_dropna (col : list (option string)) ks :
  List.length (filter (fun x => isin (Some x) ks) (dropna col)) =
  List.length (filter (fun o => isin o ks) col).
Proof.
  induction col as [|[v|] tl IH]; simpl in *; [reflexivity| |exact IH].
  destruct (existsb (String.eqb v) ks); simpl; rewrite IH; reflexivity.
Qed.

Lemma length_filter_map (X Y : Type) (f : X -> Y) (P : Y -> bool) l :
  List.length (filter P (map f l)) = List.length (filter (fun x => P (f x)) l).
Proof.
  induction l as [|x tl IH]; simpl; [reflexivity|].
  destruct (P (f x)); simpl; rewrite IH; reflexivity.
Qed.

Lemma SentimentCounts_values df :
  map snd (SentimentCounts df) =
  map (fun k => Z.of_nat (List.length
         (filter (fun x => cell_eqb (Some x) k) (dropna (map Sentiment df)))))
      (top_10_sentiments df).
Proof.
  unfold top_10_sentiments. rewrite map_map. apply map_ext_in.
  intros [k c] Hin. simpl. destruct (in_SentimentCounts df k c Hin) as [-> _].
  unfold count. f_equal. f_equal. apply filter_ext.
  intro x. apply String.eqb_sym.
Qed.

(** With at most 10 distinct labels every label is taken. *)
Lemma top_10_sentiments_all df s :
  List.length (unique (dropna (map Sentiment df))) <= 10 ->
  In s (dropna (map Sentiment df)) -> In s (top_10_sentiments df).
Proof.
  intros Hlen Hs.
  apply (NoDup_length_incl (NoDup_top_10_sentiments df)
           (l' := unique (dropna (map Sentiment df)))).
  - rewrite length_top_10_sentiments. lia.
  - intros t Ht. apply in_unique, in_top_10_sentiments, Ht.
  - apply in_unique, Hs.
Qed.

Lemma filter_filter_isin df s :
  In s (top_10_sentiments df) ->
  filter (fun r => cell_eqb (Sentiment r) s) (sentiment_filtered_df df) =
  filter (fun r => cell_eqb (Sentiment r) s) df.
Proof.
  intro Hs. unfold sentiment_filtered_df. rewrite <- filter_andb.
  apply filter_ext. intro r.
  destruct (cell_eqb (Sentiment r) s) eqn:He; [|apply andb_false_r].
  rewrite andb_true_r. apply isin_true.
  apply cell_eqb_true in He. eauto.
Qed.

End SentimentTables.

(** X11: [SentimentCounts] lists the labels from the most frequent to
    the least frequent: no entry has a larger count than an entry before
    it. *)
Theorem X11_SentimentCounts_descending (df : DataFrame) :
  StronglySorted desc (SentimentCounts df).
Proof.
  unfold SentimentCounts, nlargest.
  apply StronglySorted_firstn, sort_desc_sorted.
Qed.

(** X12: when the data has at most 10 distinct sentiments the top-10
    restriction of line 64 removes nothing but the rows without a
    sentiment. *)
Theorem X12_few_sentiments_keep_all_rows (df : DataFrame)
  (Hfew : List.length (unique (dropna (map Sentiment df))) <= 10) :
  sentiment_filtered_df df = filter (fun r => notna (Sentiment r)) df.
Proof.
  unfold sentiment_filtered_df. apply filter_ext_in. intros r Hin.
  apply eq_true_iff_eq. rewrite isin_true, notna_true. split.
  - intros [s [Hs _]]. eauto.
  - intros [s Hs]. exists s. split; [exact Hs|].
    apply top_10_sentiments_all; [exact Hfew|].
    apply in_dropna. rewrite <- Hs. apply in_map, Hin.
Qed.

Lemma X12_few_sentiments_keep_all_rows_witness :
  sentiment_filtered_df fixture5 = filter (fun r => notna (Sentiment r)) fixture5.
Proof.
  apply (X12_few_sentiments_keep_all_rows fixture5). simpl. lia.
Defined.

(** X14: the counts of the top-10 labels add up to the number of rows of
    the frame of line 64: the bars of the distribution chart account for
    every row it is drawn from. *)
Theorem X14_SentimentCounts_total (df : DataFrame) :
  sum_values (map snd (SentimentCounts df)) =
  Z.of_nat (List.length (sentiment_filtered_df df)).
Proof.
  rewrite SentimentCounts_values.
  rewrite (sum_group_sizes _ Some); [|apply NoDup_top_10_sentiments].
  f_equal. rewrite length_filter_dropna.
  unfold sentiment_filtered_df. apply length_filter_map.
Qed.

(** X15: the bars of the posts-by-platform chart (fig2) are all at least
    1 high and together count every row of the frame. *)
Theorem X15_posts_by_platform_total (df : DataFrame) :
  sum_values (map snd (posts_by_platform df)) = Z.of_nat (List.length df) /\
  (forall p n, In (p, n) (posts_by_platform df) -> (1 <= n)%Z).
Proof.
  unfold posts_by_platform. split.
  - rewrite map_map. simpl.
    rewrite (sum_values_map_ext _ _
      (fun k => Z.of_nat (List.length (filter (fun x => cell_eqb (Some x) k) (map Platform df))))).
    + rewrite (sum_group_sizes _ Some); [|apply NoDup_unique].
      f_equal. rewrite filter_all; [apply length_map|]. intros p Hin.
      apply isin_true. exists p. split; [reflexivity | apply in_unique, Hin].
    + intros k _. unfold count. f_equal. f_equal. apply filter_ext.
      intro x. apply String.eqb_sym.
  - intros p n Hin. apply in_map_iff in Hin as [k [Heq Hk]].
    injection Heq as <- <-. apply -> in_unique in Hk. unfold count.
    destruct (filter (String.eqb k) (map Platform df)) as [|x tl] eqn:Hf;
      [|simpl List.length; lia].
    assert (H : In k (filter (String.eqb k) (map Platform df)))
      by (apply filter_In; split; [exact Hk | apply String.eqb_refl]).
    rewrite Hf in H. destruct H.
Qed.

(** ** Rows of the count matrices (lines 118-128) *)

Section MatrixRows.

Variables rowkey colkey : Post -> option string.
Variable df : DataFrame.

Lemma in_crosstab p cells :
  In (p, cells) (crosstab rowkey colkey df) <->
  In p (map fst (crosstab rowkey colkey df)) /\
  cells = map (fun s => (s, pair_count rowkey colkey p s df))
              (crosstab_columns rowkey colkey df).
Proof.
  rewrite crosstab_index. unfold crosstab, crosstab_columns. rewrite in_map_iff.
  split.
  - intros [k [Heq Hk]]. injection Heq as <- <-. split; [exact Hk | reflexivity].
  - intros [Hp ->]. exists p. split; [reflexivity | exact Hp].
Qed.

Lemma in_crosstab_columns' s :
  In s (crosstab_columns rowkey colkey df) <->
  exists r, In r df /\ colkey r = Some s /\ exists p, rowkey r = Some p.
Proof. apply in_crosstab_columns. Qed.

(** A row of the matrix adds up to the number of rows of the frame with
    that index label and some column label. *)
Lemma crosstab_row_sum p :
  sum_values (map (fun s => pair_count rowkey colkey p s df)
                  (crosstab_columns rowkey colkey df)) =
  Z.of_nat (List.length
    (filter (fun r => cell_eqb (rowkey r) p && notna (colkey r)) df)).
Proof.
  unfold pair_count.
  rewrite (sum_values_map_ext _ _
    (fun s => Z.of_nat (List.length
       (filter (fun r => cell_eqb (colkey r) s)
               (filter (fun r => cell_eqb (rowkey r) p) df))))).
  - rewrite (sum_group_sizes _ colkey); [|apply NoDup_labels].
    f_equal. f_equal. rewrite <- filter_andb.
    apply filter_ext_in. intros r Hin.
    destruct (cell_eqb (rowkey r) p) eqn:Hp; [|reflexivity]. simpl.
    apply cell_eqb_true in Hp.
    apply eq_true_iff_eq. rewrite isin_true, notna_true. split.
    + intros [s [Hs _]]. eauto.
    + intros [s Hs]. exists s. split; [exact Hs|].
      apply in_crosstab_columns'. eauto.
  - intros s _. rewrite <- filter_andb. reflexivity.
Qed.

End MatrixRows.

Section CountryRows.

Lemma lookup_setitem col v row : lookup col (setitem col v row) = Some v.
Proof.
  unfold lookup. induction row as [|[c w] tl IH]; simpl.
  - rewrite String.eqb_refl. reflexivity.
  - destruct (String.eqb_spec c col) as [->|Hne]; simpl.
    + rewrite String.eqb_refl. reflexivity.
    + destruct (String.eqb_spec c col); [contradiction | exact IH].
Qed.


(** The rows of [country_sentiment], spelled out. *)
Lemma country_sentiment_row df rows row :
  country_sentiment df = Some rows -> In row rows ->
  In (row_Country row) (map fst (crosstab Country Sentiment df)) /\
  let cells := map (fun s => (s, pair_count Country Sentiment (row_Country row) s df))
                   (crosstab_columns Country Sentiment df) in
  row_counts row = setitem "Total_Posts" (sum_values (map snd cells)) cells /\
  idxmax (row_counts row) = Some (Dominant_Sentiment row).
Proof.
  intros Hrows Hin.
  destruct (country_sentiment_spec df) as [rows' [Hrows' F]].
  assert (rows' = rows) by congruence. subst rows'.
  destruct (Forall2_in_r _ _ _ _ _ _ F Hin) as [[c cells] [Hcr [HC [Hcounts Hdom]]]].
  simpl in HC, Hcounts. apply in_crosstab in Hcr as [Hc ->].
  rewrite HC. split; [exact Hc|]. split; [exact Hcounts | exact Hdom].
Qed.

Lemma country_sentiment_countries df rows :
  country_sentiment df = Some rows ->
  map row_Country rows = map fst (crosstab Country Sentiment df).
Proof.
  intro Hrows.
  destruct (country_sentiment_spec df) as [rows' [Hrows' F]].
  assert (rows' = rows) by congruence. subst rows'. symmetry.
  eapply Forall2_map_eq; [|exact F].
  intros cr row [H _]. symmetry. exact H.
Qed.

Lemma map_snd_cells (f : string -> Z) l :
  map snd (map (fun s => (s, f s)) l) = map f l.
Proof. rewrite map_map. reflexivity. Qed.

Lemma map_fst_cells (f : string -> Z) l :
  map fst (map (fun s => (s, f s)) l) = l.
Proof. rewrite map_map. simpl. apply map_id. Qed.

End CountryRows.

(** X16: in the pivot of line 118 every row has the same column labels,
    and its cells add up to the number of posts of that platform that
    carry a sentiment, which is at least 1. *)
Theorem X16_pivot_row_totals (df : DataFrame) (p : string) (cells : list (string * Z))
  (Hrow : In (p, cells) (sentiment_platform_counts df)) :
  map fst cells = crosstab_columns by_Platform Sentiment df /\
  sum_values (map snd cells) =
    Z.of_nat (List.length
      (filter (fun r => (Platform r =? p)%string && notna (Sentiment r)) df)) /\
  (1 <= sum_values (map snd cells))%Z.
Proof.
  unfold sentiment_platform_counts in Hrow.
  apply in_crosstab in Hrow as [Hp ->].
  rewrite map_fst_cells, map_snd_cells, crosstab_row_sum.
  split; [reflexivity|]. split; [reflexivity|].
  rewrite crosstab_index in Hp.
  apply in_crosstab_index in Hp as [r [Hin [Hr [s Hs]]]].
  destruct (filter _ df) as [|x tl] eqn:Hf; [|simpl List.length; lia].
  assert (H : In r (filter (fun r => cell_eqb (by_Platform r) p && notna (Sentiment r)) df)).
  { apply filter_In. split; [exact Hin|]. apply andb_true_iff.
    split; [apply cell_eqb_true, Hr | apply notna_true; eauto]. }
  rewrite Hf in H. destruct H.
Qed.

Lemma X16_pivot_row_totals_witness :
  map fst [("Anger", 0%Z); ("Joy", 2%Z)] =
    crosstab_columns by_Platform Sentiment (load_data fixture5) /\
  sum_values (map snd [("Anger", 0%Z); ("Joy", 2%Z)]) =
    Z.of_nat (List.length
      (filter (fun r => (Platform r =? "Twitter")%string && notna (Sentiment r))
              (load_data fixture5))) /\
  (1 <= sum_values (map snd [("Anger", 0%Z); ("Joy", 2%Z)]))%Z.
Proof.
  apply (X16_pivot_row_totals (load_data fixture5) "Twitter").
  vm_compute. right. right. left. reflexivity.
Defined.

(** X17: in every row of [country_sentiment] the column "Total_Posts"
    (line 126) holds the number of posts of that country that carry a
    sentiment, which is at least 1. *)
Theorem X17_Total_Posts_counts_country_posts (df : DataFrame)
  (rows : list CountryRow) (row : CountryRow)
  (Hrows : country_sentiment df = Some rows) (Hrow : In row rows) :
  let n := Z.of_nat (List.length
             (filter (fun r => cell_eqb (Country r) (row_Country row)
                               && notna (Sentiment r)) df)) in
  lookup "Total_Posts" (row_counts row) = Some n /\ (1 <= n)%Z.
Proof.
  intro n. destruct (country_sentiment_row df rows row Hrows Hrow) as [Hc [Hcounts _]].
  simpl in Hcounts. rewrite Hcounts, lookup_setitem, map_snd_cells, crosstab_row_sum.
  split; [reflexivity|]. fold n.
  rewrite crosstab_index in Hc.
  apply in_crosstab_index in Hc as [r [Hin [Hr [s Hs]]]].
  subst n. destruct (filter _ df) as [|x tl] eqn:Hf; [|simpl List.length; lia].
  assert (H : In r (filter (fun r => cell_eqb (Country r) (row_Country row)
                                     && notna (Sentiment r)) df)).
  { apply filter_In. split; [exact Hin|]. apply andb_true_iff.
    split; [apply cell_eqb_true, Hr | apply notna_true; eauto]. }
  rewrite Hf in H. destruct H.
Qed.

Lemma X17_Total_Posts_counts_country_posts_witness :
  let row := mkCountryRow "US" [("Anger", 1%Z); ("Joy", 1%Z); ("Total_Posts", 2%Z)]
                          "Total_Posts" in
  let n := Z.of_nat (List.length
             (filter (fun r => cell_eqb (Country r) (row_Country row)
                               && notna (Sentiment r)) two_sentiments)) in
  lookup "Total_Posts" (row_counts row) = Some n /\ (1 <= n)%Z.
Proof.
  apply (X17_Total_Posts_counts_country_posts two_sentiments
           [mkCountryRow "US" [("Anger", 1%Z); ("Joy", 1%Z); ("Total_Posts", 2%Z)]
                         "Total_Posts"]).
  - reflexivity.
  - left. reflexivity.
Defined.

Section DominantOfOneSentiment.

Lemma pair_count_zero rowkey colkey p s df :
  (forall r, In r df -> rowkey r = Some p -> colkey r <> Some s) ->
  pair_count rowkey colkey p s df = 0%Z.
Proof.
  intro H. unfold pair_count.
  destruct (filter _ df) as [|x tl] eqn:Hf; [reflexivity|].
  assert (Hx : In x (x :: tl)) by (left; reflexivity).
  rewrite <- Hf in Hx. apply filter_In in Hx as [Hin Hb].
  apply andb_true_iff in Hb as [Hp Hs].
  apply cell_eqb_true in Hp, Hs. destruct (H x Hin Hp Hs).
Qed.

Lemma in_cells (f : string -> Z) l x w :
  In (x, w) (map (fun s => (s, f s)) l) -> In x l /\ w = f x.
Proof.
  intro H. apply in_map_iff in H as [s [Heq Hs]].
  injection Heq as <- <-. split; [exact Hs | reflexivity].
Qed.

End DominantOfOneSentiment.

(** X18: for a country all of whose labelled posts carry one and the same
    sentiment, [Dominant_Sentiment] (line 127) is that sentiment (no
    sentiment of the data being spelled "Total_Posts"). *)
Theorem X18_single_sentiment_is_dominant (df : DataFrame)
  (rows : list CountryRow) (row : CountryRow) (s : string)
  (Hlabel : forall r, In r df -> Sentiment r <> Some "Total_Posts")
  (Hrows : country_sentiment df = Some rows) (Hrow : In row rows)
  (Hone : forall r, In r df -> Country r = Some (row_Country row) ->
                    Sentiment r = None \/ Sentiment r = Some s) :
  Dominant_Sentiment row = s.
Proof.
  destruct (country_sentiment_row df rows row Hrows Hrow) as [Hc [Hcounts Hdom]].
  simpl in Hcounts. set (c := row_Country row) in *.
  set (columns := crosstab_columns Country Sentiment df) in *.
  set (f := fun s => pair_count Country Sentiment c s df) in *.
  change (row_counts row =
          setitem "Total_Posts"
            (sum_values (map snd (map (fun s => (s, f s)) columns)))
            (map (fun s => (s, f s)) columns)) in Hcounts.
  (* the country has a post, and its sentiment is s *)
  rewrite crosstab_index in Hc.
  apply in_crosstab_index in Hc as [r0 [Hin0 [Hc0 [s0 Hs0]]]].
  assert (s0 = s).
  { destruct (Hone r0 Hin0 Hc0) as [H|H]; congruence. }
  subst s0.
  assert (Hs : In s columns) by (apply in_crosstab_columns'; eauto).
  assert (Hv : (1 <= f s)%Z) by (apply (pair_count_positive _ _ _ _ _ r0); assumption).
  assert (Hzero : forall s', In s' columns -> s' <> s -> f s' = 0%Z).
  { intros s' _ Hne. apply pair_count_zero. intros r Hin Hr.
    destruct (Hone r Hin Hr) as [H|H]; congruence. }
  assert (Hsum : sum_values (map snd (map (fun s => (s, f s)) columns)) = f s).
  { rewrite map_snd_cells. unfold f. rewrite crosstab_row_sum. unfold pair_count.
    f_equal. f_equal. apply filter_ext_in. intros r Hin.
    destruct (cell_eqb (Country r) c) eqn:Hr; [|reflexivity]. simpl.
    apply cell_eqb_true in Hr.
    destruct (Hone r Hin Hr) as [H|H]; rewrite H; simpl;
      [reflexivity | symmetry; apply String.eqb_refl]. }
  rewrite setitem_new in Hcounts.
  2:{ intros x w Hx. apply in_cells in Hx as [Hx _].
      apply in_crosstab_columns' in Hx as [r [Hr [Hsr _]]].
      intros ->. exact (Hlabel r Hr Hsr). }
  rewrite Hsum in Hcounts.
  assert (Hnd : NoDup columns) by apply NoDup_labels.
  destruct (in_split s columns Hs) as [c1 [c2 Hsplit]].
  rewrite Hsplit in Hnd. apply NoDup_remove_2 in Hnd.
  rewrite Hsplit, map_app in Hcounts. simpl in Hcounts.
  rewrite <- app_assoc in Hcounts. simpl in Hcounts.
  rewrite Hcounts, idxmax_first in Hdom.
  - congruence.
  - intros x w Hx. apply in_cells in Hx as [Hx ->].
    rewrite Hzero; [lia| |].
    + rewrite Hsplit. apply in_or_app. left. exact Hx.
    + intros ->. apply Hnd, in_or_app. left. exact Hx.
  - intros x w Hx. apply in_app_or in Hx as [Hx|[Hx|[]]].
    + apply in_cells in Hx as [Hx ->]. rewrite Hzero; [lia| |].
      * rewrite Hsplit. apply in_or_app. right. right. exact Hx.
      * intros ->. apply Hnd, in_or_app. right. exact Hx.
    + injection Hx as _ <-. lia.
Qed.

Lemma X18_single_sentiment_is_dominant_witness :
  Dominant_Sentiment
    (mkCountryRow "US" [("Anger", 0%Z); ("Joy", 3%Z); ("Total_Posts", 3%Z)] "Joy")
  = "Joy".
Proof.
  apply (X18_single_sentiment_is_dominant (load_data fixture5)
           [mkCountryRow "UK" [("Anger", 1%Z); ("Joy", 1%Z); ("Total_Posts", 2%Z)]
                         "Total_Posts";
            mkCountryRow "US" [("Anger", 0%Z); ("Joy", 3%Z); ("Total_Posts", 3%Z)]
                         "Joy"]).
  - intros r Hin. simpl in Hin.
    repeat (destruct Hin as [<-|Hin]; [discriminate|]). contradiction.
  - reflexivity.
  - right. left. reflexivity.
  - intros r Hin. simpl in Hin.
    repeat (destruct Hin as [<-|Hin];
            [simpl; intro; try discriminate; right; reflexivity|]).
    contradiction.
Defined.

(** X19: for a country with posts of two different sentiments,
    [Dominant_Sentiment] (line 127) is no sentiment: it is the label
    "Total_Posts" of the column line 126 added (no sentiment of the data
    being spelled that way). *)
Theorem X19_two_sentiments_give_Total_Posts (df : DataFrame) (c s1 s2 : string)
  (r1 r2 : Post)
  (Hlabel : forall r, In r df -> Sentiment r <> Some "Total_Posts")
  (Hin1 : In r1 df) (Hc1 : Country r1 = Some c) (Hs1 : Sentiment r1 = Some s1)
  (Hin2 : In r2 df) (Hc2 : Country r2 = Some c) (Hs2 : Sentiment r2 = Some s2)
  (Hne : s1 <> s2) :
  exists rows row,
    country_sentiment df = Some rows /\ In row rows /\
    row_Country row = c /\ Dominant_Sentiment row = "Total_Posts".
Proof.
  exact (country_with_two_sentiments_gets_Total_Posts df c s1 s2 r1 r2
           Hlabel Hin1 Hc1 Hs1 Hin2 Hc2 Hs2 Hne).
Qed.

Lemma X19_two_sentiments_give_Total_Posts_witness :
  exists rows row,
    country_sentiment two_sentiments = Some rows /\ In row rows /\
    row_Country row = "US" /\ Dominant_Sentiment row = "Total_Posts".
Proof.
  apply (X19_two_sentiments_give_Total_Posts two_sentiments "US" "Joy" "Anger"
           (post "Twitter" "US" 2023 "Jan" 1 "Joy" 10)
           (post "Twitter" "US" 2023 "Jan" 1 "Anger" 5)).
  - intros r Hin. simpl in Hin.
    repeat (destruct Hin as [<-|Hin]; [discriminate|]). contradiction.
  - left. reflexivity.
  - reflexivity.
  - reflexivity.
  - right. left. reflexivity.
  - reflexivity.
  - reflexivity.
  - discriminate.
Defined.

(** ** Country drill-down (lines 170-237) *)

Section DrillDown.

Lemma unique_NoDup l : NoDup l -> unique l = l.
Proof.
  induction 1 as [|x tl Hnotin _ IH]; simpl; [reflexivity|].
  rewrite IH. f_equal. apply filter_all. intros y Hy.
  apply negb_true_iff, String.eqb_neq. intros ->. contradiction.
Qed.

Lemma sorted_Sorted_id l : Sorted ascending l -> sorted l = l.
Proof.
  induction 1 as [|x tl Hs IH Hhd]; simpl; [reflexivity|].
  rewrite IH. destruct Hhd as [|y tl' Hxy]; simpl; [reflexivity|].
  unfold ascending in Hxy. rewrite Hxy. reflexivity.
Qed.

Lemma list_index_nth x l :
  In x l -> exists i, list_index x l = Some i /\ nth_error l i = Some x.
Proof.
  induction l as [|y tl IH]; simpl; [tauto|]. intro Hin.
  destruct (String.eqb_spec y x) as [->|Hne]; [exists 0; split; reflexivity|].
  destruct Hin as [H|H]; [contradiction|].
  destruct (IH H) as [i [-> Hi]]. exists (S i). split; [reflexivity | exact Hi].
Qed.

Lemma contains_true x l : contains x l = true <-> In x l.
Proof.
  unfold contains. rewrite existsb_exists. split.
  - intros [y [Hin Heq]]. apply String.eqb_eq in Heq. subst y. exact Hin.
  - intro Hin. exists x. split; [exact Hin | apply String.eqb_refl].
Qed.

Lemma py_slice_head (X : Type) (l : list X) : py_slice 0 2 l = firstn 2 l.
Proof.
  destruct l as [|a [|b tl]]; [reflexivity | reflexivity |].
  unfold py_slice. cbv zeta.
  change (0 <? 0)%Z with false. change (2 <? 0)%Z with false. cbv iota.
  rewrite !Z.min_l by (simpl List.length; lia). reflexivity.
Qed.





Variable df : DataFrame.
Variable rows : list CountryRow.
Hypothesis Hrows : country_sentiment df = Some rows.

Let columns := crosstab_columns Country Sentiment df.

Lemma country_list_rows : country_list rows = map row_Country rows.
Proof.
  unfold country_list. rewrite (country_sentiment_countries df rows Hrows).
  rewrite crosstab_index.
  rewrite unique_NoDup by apply NoDup_labels.
  apply sorted_Sorted_id, sorted_Sorted.
Qed.

Lemma in_country_list c :
  In c (country_list rows) <->
  exists r, In r df /\ Country r = Some c /\ exists s, Sentiment r = Some s.
Proof.
  rewrite country_list_rows, (country_sentiment_countries df rows Hrows).
  rewrite crosstab_index. apply in_crosstab_index.
Qed.

Hypothesis Hlabel : forall r, In r df -> Sentiment r <> Some "Total_Posts".


Hypothesis Hdominant : forall r, In r df -> Sentiment r <> Some "Dominant_Sentiment".



End DrillDown.

(** X20: the country list of line 171 is the Country column of
    [country_sentiment] as it stands (one row per country, already in
    ascending order, without repeats), and a country is listed exactly
    when some post of that country carries a sentiment. *)
Theorem X20_country_list_matches_rows (df : DataFrame) (rows : list CountryRow)
  (Hrows : country_sentiment df = Some rows) :
  country_list rows = map row_Country rows /\
  Sorted ascending (country_list rows) /\
  NoDup (country_list rows) /\
  (forall c, In c (country_list rows) <->
     exists r, In r df /\ Country r = Some c /\ exists s, Sentiment r = Some s).
Proof.
  split; [apply (country_list_rows df rows Hrows)|].
  split; [apply sorted_Sorted|].
  split; [apply NoDup_sorted, NoDup_unique|].
  apply (in_country_list df rows Hrows).
Qed.

Lemma X20_country_list_matches_rows_witness :
  let rows := [mkCountryRow "US" [("Anger", 1%Z); ("Joy", 1%Z); ("Total_Posts", 2%Z)]
                            "Total_Posts"] in
  country_list rows = map row_Country rows /\
  Sorted ascending (country_list rows) /\
  NoDup (country_list rows) /\
  (forall c, In c (country_list rows) <->
     exists r, In r two_sentiments /\ Country r = Some c /\
               exists s, Sentiment r = Some s).
Proof.
  apply (X20_country_list_matches_rows two_sentiments). reflexivity.
Defined.

(** X21: the initial position of the country selectbox (line 175) is
    always defined: [list.index] is only called when "United States" is
    in the list, and then it is the position of that entry; otherwise
    the position is 0. *)
Theorem X21_default_country_index (countries : list string) :
  exists i,
    default_country_index countries = Some i /\
    (In "United States" countries -> nth_error countries i = Some "United States") /\
    (~ In "United States" countries -> i = 0).
Proof.
  unfold default_country_index.
  destruct (contains "United States" countries) eqn:Hc.
  - apply contains_true in Hc.
    destruct (list_index_nth _ _ Hc) as [i [Hi Hnth]].
    exists i. split; [exact Hi|]. split; [intros _; exact Hnth | contradiction].
  - exists 0. split; [reflexivity|]. split; [|reflexivity].
    intro Hin. apply contains_true in Hin. congruence.
Qed.



(** X23: the initial selection of the comparison multiselect (line 211)
    is made of at most 2 options of the country list, which is within the
    limit of 5 selections, and repeats no option when the list repeats
    none. *)
Theorem X23_default_compare_countries (countries : list string) :
  incl (default_compare_countries countries) countries /\
  List.length (default_compare_countries countries) <= 2 /\
  (NoDup countries -> NoDup (default_compare_countries countries)).
Proof.
  unfold default_compare_countries.
  destruct (contains "United States" countries) eqn:Hus;
    destruct (contains "United Kingdom" countries) eqn:Huk; simpl andb; cbv iota;
    try (rewrite py_slice_head; split;
         [intros x Hx; apply (in_firstn _ 2 countries x Hx)|];
         split; [rewrite length_firstn; lia | apply NoDup_firstn]).
  apply contains_true in Hus, Huk. split.
  - intros x [<-|[<-|[]]]; assumption.
  - split; [simpl; lia|]. intros _.
    constructor; [intros [H|[]]; discriminate|]. constructor; [tauto | constructor].
Qed.



(** X25: for data in which no sentiment is spelled "Dominant_Sentiment"
    or "Country" (names of other columns of the table), lines 125-128
    yield a table: [idxmax] always has the column "Total_Posts" to read.
    The table has one row per country with a labelled post, in ascending
    order of the countries, and the dominant label of a row is always the
    label of one of its count columns. *)
Theorem X25_country_sentiment_never_raises (df : DataFrame)
  (Hlabel : forall r, In r df ->
     Sentiment r <> Some "Dominant_Sentiment" /\ Sentiment r <> Some "Country") :
  exists rows,
    country_sentiment df = Some rows /\
    map row_Country rows =
      sorted (unique (dropna (map Country
        (filter (fun r => notna (Country r) && notna (Sentiment r)) df)))) /\
    (forall row, In row rows ->
       In (Dominant_Sentiment row) (map fst (row_counts row))).
Proof.
  destruct (country_sentiment_spec df) as [rows [Hrows F]].
  exists rows. split; [exact Hrows|]. split.
  - rewrite (country_sentiment_countries df rows Hrows). apply crosstab_index.
  - intros row Hin.
    destruct (country_sentiment_row df rows row Hrows Hin) as [_ [_ Hdom]].
    apply idxmax_max in Hdom as [v [Hv _]].
    apply in_map_iff. exists (Dominant_Sentiment row, v). split; [reflexivity | exact Hv].
Qed.

Lemma X25_country_sentiment_never_raises_witness :
  exists rows,
    country_sentiment (load_data fixture5) = Some rows /\
    map row_Country rows =
      sorted (unique (dropna (map Country
        (filter (fun r => notna (Country r) && notna (Sentiment r))
                (load_data fixture5))))) /\
    (forall row, In row rows ->
       In (Dominant_Sentiment row) (map fst (row_counts row))).
Proof.
  apply (X25_country_sentiment_never_raises (load_data fixture5)).
  intros r Hin. simpl in Hin.
  repeat (destruct Hin as [<-|Hin]; [split; discriminate|]). contradiction.
Defined.

(** * The model against specifications by character code *)

Section CharacterCodes.
Import PyStr PyStrFacts.

Lemma code_lower_char c : nat_of_ascii (lower_char c) = lower_code (nat_of_ascii c).
Proof. by_cases_on_char c. Qed.

Lemma code_upper_char c : nat_of_ascii (upper_char c) = upper_code (nat_of_ascii c).
Proof. by_cases_on_char c. Qed.

Lemma iscased_letter_code c : iscased c = letter_code (nat_of_ascii c).
Proof. reflexivity. Qed.

Lemma isspace_space_code c : isspace c = space_code (nat_of_ascii c).
Proof. reflexivity. Qed.

Lemma codes_cons c s : codes (String c s) = nat_of_ascii c :: codes s.
Proof. reflexivity. Qed.

Lemma codes_inj s t : codes s = codes t -> s = t.
Proof.
  revert t; induction s as [|c s IH]; intros [|d t] H; try discriminate;
    [reflexivity|].
  rewrite !codes_cons in H. injection H as Hc Hs.
  rewrite <- (ascii_nat_embedding c), <- (ascii_nat_embedding d), Hc.
  f_equal. apply IH, Hs.
Qed.

Lemma codes_lower s : codes (lower s) = map lower_code (codes s).
Proof.
  induction s as [|c s IH]; [reflexivity|].
  simpl lower. rewrite !codes_cons, IH, code_lower_char. reflexivity.
Qed.


(** [title_from] writes a small letter after a letter and a capital
    elsewhere. *)
Lemma title_from_codes s :
  forall b,
    List.length (codes (title_from b s)) = List.length (codes s) /\
    forall i n, nth_error (codes s) i = Some n ->
      nth_error (codes (title_from b s)) i =
      Some (if match i with
               | 0 => b
               | S j => match nth_error (codes s) j with
                        | Some p => letter_code p
                        | None => false
                        end
               end
            then lower_code n else upper_code n).
Proof.
  induction s as [|c s IH]; intro b.
  - split; [reflexivity|]. intros [|i] n H; discriminate.
  - simpl title_from. rewrite !codes_cons.
    destruct (IH (iscased c)) as [Hlen Hnth]. split.
    + simpl. rewrite Hlen. reflexivity.
    + intros [|i] n H; simpl in H.
      * injection H as <-. simpl.
        destruct b; [rewrite code_lower_char | rewrite code_upper_char]; reflexivity.
      * simpl nth_error at 1. rewrite (Hnth i n H).
        destruct i as [|j]; [rewrite iscased_letter_code|]; reflexivity.
Qed.

Lemma title_title_cased s : title_cased s (title s).
Proof.
  unfold title_cased, title. destruct (title_from_codes s false) as [Hlen Hnth].
  split; [exact Hlen|]. intros i n H. rewrite (Hnth i n H).
  destruct i; reflexivity.
Qed.

Lemma same_ignoring_case_lower s t : same_ignoring_case s t -> lower s = lower t.
Proof.
  unfold same_ignoring_case. intro H. apply codes_inj.
  rewrite !codes_lower. exact H.
Qed.

Lemma lower_code_not_capital m : ~ (65 <= lower_code m <= 90).
Proof.
  unfold lower_code.
  destruct (Nat.leb_spec 65 m); destruct (Nat.leb_spec m 90); simpl; lia.
Qed.

(** Whitespace splitting. *)

Lemma blank_cons c s :
  blank (String c s) <-> space_code (nat_of_ascii c) = true /\ blank s.
Proof. unfold blank. rewrite codes_cons. simpl. apply andb_true_iff. Qed.

Lemma no_space_codes w :
  no_space w = forallb (fun n => negb (space_code n)) (codes w).
Proof.
  induction w as [|c w IH]; [reflexivity|].
  rewrite codes_cons. simpl. rewrite IH, isspace_space_code. reflexivity.
Qed.

Lemma length_zero s : length s = 0 -> s = "".
Proof. destruct s; [reflexivity | discriminate]. Qed.

Lemma split_from_blank b x : blank b -> split_from "" (b ++ x) = split_from "" x.
Proof.
  induction b as [|c b IH]; intro H; [reflexivity|].
  apply blank_cons in H as [Hc Hb]. simpl.
  rewrite isspace_space_code, Hc. simpl. apply IH, Hb.
Qed.

Lemma split_from_app_word cur w rest :
  no_space w = true -> split_from cur (w ++ rest) = split_from (cur ++ w) rest.
Proof.
  revert cur; induction w as [|c w IH]; intros cur H; simpl in *.
  - rewrite append_empty_r. reflexivity.
  - apply andb_prop in H as [Hc Hw]. apply negb_true_iff in Hc. rewrite Hc.
    rewrite IH by exact Hw. rewrite append_assoc. reflexivity.
Qed.

(** The relation determines the tokens: they are what [split] returns. *)
Lemma whitespace_split_functional s tokens :
  whitespace_split s tokens -> tokens = split s.
Proof.
  induction 1 as [s Hs | b w rest tokens Hb [Hne Hw] Hend _ IH].
  - unfold split. rewrite <- (append_empty_r s), split_from_blank by exact Hs.
    reflexivity.
  - unfold split. rewrite split_from_blank by exact Hb.
    rewrite split_from_app_word by (rewrite no_space_codes; exact Hw).
    simpl append. rewrite IH. unfold split.
    assert (Hlen : (length w =? 0) = false).
    { apply Nat.eqb_neq. intro H0. apply Hne, length_zero, H0. }
    destruct rest as [|c rest]; simpl in *.
    + rewrite Hlen. reflexivity.
    + rewrite isspace_space_code, Hend, Hlen. reflexivity.
Qed.

Lemma whitespace_split_space c s tokens :
  space_code (nat_of_ascii c) = true ->
  whitespace_split s tokens -> whitespace_split (String c s) tokens.
Proof.
  intros Hc H. destruct H as [s Hs | b w rest tokens Hb Hw Hend H].
  - apply split_blank, blank_cons. split; assumption.
  - apply (split_token (String c b) w rest tokens); try assumption.
    apply blank_cons. split; assumption.
Qed.

(** [split] returns tokens in the sense of the relation. *)
Lemma split_from_whitespace_split s :
  forall cur, no_space cur = true -> whitespace_split (cur ++ s) (split_from cur s).
Proof.
  assert (Hnil : whitespace_split "" []) by (apply split_blank; reflexivity).
  assert (Hsolid : forall cur, no_space cur = true -> length cur <> 0 -> solid cur).
  { intros cur Hcur Hlen. split; [intros ->; apply Hlen; reflexivity|].
    rewrite <- no_space_codes. exact Hcur. }
  induction s as [|c s IH]; intros cur Hcur; simpl split_from.
  - destruct (Nat.eqb_spec (length cur) 0) as [H0|Hn].
    + rewrite (length_zero _ H0). exact Hnil.
    + apply (split_token "" cur "" []); [reflexivity | auto | exact I | exact Hnil].
  - destruct (isspace c) eqn:Hc.
    + rewrite isspace_space_code in Hc.
      pose proof (whitespace_split_space c s _ Hc (IH "" eq_refl)) as Hrest.
      destruct (Nat.eqb_spec (length cur) 0) as [H0|Hn].
      * rewrite (length_zero _ H0). exact Hrest.
      * apply (split_token "" cur (String c s)); [reflexivity | auto | exact Hc | exact Hrest].
    + replace (cur ++ String c s)%string with ((cur ++ String c "") ++ s)%string
        by (rewrite append_assoc; reflexivity).
      apply IH. rewrite no_space_app, Hcur. simpl. rewrite Hc. reflexivity.
Qed.

Lemma split_whitespace_split s : whitespace_split s (split s).
Proof. exact (split_from_whitespace_split s "" eq_refl). Qed.

Lemma whitespace_split_iff s tokens : whitespace_split s tokens <-> tokens = split s.
Proof.
  split; [apply whitespace_split_functional|].
  intros ->. apply split_whitespace_split.
Qed.




End CharacterCodes.

(** C7: for platforms within the ASCII range, [load_data] (lines 13-17)
    re-cases the platform of every row to title case (a letter after a
    letter is small, any other letter a capital, nothing else changes)
    and leaves the other fields alone, so rows whose platforms differ
    only in the case of their letters get one and the same platform.  In
    particular, in a frame of two rows whose platforms are "twitter" and
    "Twitter" both rows get the platform "Twitter": there is one platform
    label and one group holding both rows, and its count is 2. *)
Theorem C7_platform_case_variants_merge (csv : DataFrame) (r1 r2 : Post)
  (Hascii : Forall (fun r => is_ascii (Platform r)) csv) :
  (List.length (load_data csv) = List.length csv /\
   forall i r, nth_error csv i = Some r ->
     exists r', nth_error (load_data csv) i = Some r' /\
                title_cased (Platform r) (Platform r') /\
                r' = with_Platform (Platform r') r) /\
  (forall i j ri rj ri' rj',
     nth_error csv i = Some ri -> nth_error csv j = Some rj ->
     nth_error (load_data csv) i = Some ri' ->
     nth_error (load_data csv) j = Some rj' ->
     same_ignoring_case (Platform ri) (Platform rj) ->
     Platform ri' = Platform rj') /\
  (let df := load_data [with_Platform "twitter" r1; with_Platform "Twitter" r2] in
   map Platform df = ["Twitter"; "Twitter"] /\
   unique_platforms df = ["Twitter"] /\
   groupby by_Platform (indexed df) =
     [("Twitter", [(0, with_Platform "Twitter" r1); (1, with_Platform "Twitter" r2)])] /\
   posts_by_platform df = [("Twitter", 2%Z)]).
Proof.
  assert (Hload : forall i r, nth_error csv i = Some r ->
            nth_error (load_data csv) i =
            Some (with_Platform (PyStr.title (Platform r)) r)).
  { intros i r H. unfold load_data. rewrite nth_error_map, H. reflexivity. }
  split; [split|split].
  - unfold load_data. apply length_map.
  - intros i r H. eexists. split; [apply (Hload i r H)|].
    split; [apply title_title_cased | reflexivity].
  - intros i j ri rj ri' rj' Hi Hj Hi' Hj' Hcase.
    rewrite (Hload i ri Hi) in Hi'. rewrite (Hload j rj Hj) in Hj'.
    injection Hi' as <-. injection Hj' as <-. simpl.
    apply PyStrFacts.title_case_insensitive, same_ignoring_case_lower, Hcase.
  - repeat split.
Qed.

Lemma C7_platform_case_variants_merge_witness :
  (List.length (load_data fixture5) = List.length fixture5 /\
   forall i r, nth_error fixture5 i = Some r ->
     exists r', nth_error (load_data fixture5) i = Some r' /\
                title_cased (Platform r) (Platform r') /\
                r' = with_Platform (Platform r') r) /\
  (forall i j ri rj ri' rj',
     nth_error fixture5 i = Some ri -> nth_error fixture5 j = Some rj ->
     nth_error (load_data fixture5) i = Some ri' ->
     nth_error (load_data fixture5) j = Some rj' ->
     same_ignoring_case (Platform ri) (Platform rj) ->
     Platform ri' = Platform rj') /\
  (let df := load_data [with_Platform "twitter" (post "x" "US" 2023 "Jan" 1 "Joy" 10);
                        with_Platform "Twitter" (post "y" "UK" 2023 "Feb" 2 "Joy" 50)] in
   map Platform df = ["Twitter"; "Twitter"] /\
   unique_platforms df = ["Twitter"] /\
   groupby by_Platform (indexed df) =
     [("Twitter", [(0, with_Platform "Twitter" (post "x" "US" 2023 "Jan" 1 "Joy" 10));
                   (1, with_Platform "Twitter" (post "y" "UK" 2023 "Feb" 2 "Joy" 50))])] /\
   posts_by_platform df = [("Twitter", 2%Z)]).
Proof.
  apply (C7_platform_case_variants_merge fixture5).
  repeat constructor.
Defined.



(** The tokens of the posts with text, and the stream made of them. *)
Example texts_token_stream :
  Forall2 (fun r tokens => whitespace_split (str (Text r)) tokens) texts
    [["The"; "QUICK"; "brown"; "fox"; "jumps"]; ["nan"]; ["over"; "a"; "LAZY"; "dog"]] /\
  all_text texts = "quick brown jumps  over lazy" /\
  whitespace_split (all_text texts) ["quick"; "brown"; "jumps"; "over"; "lazy"].
Proof.
  split; [|split; [reflexivity|]].
  - repeat constructor; apply whitespace_split_iff; reflexivity.
  - apply whitespace_split_iff. reflexivity.
Qed.

(** X4: the text handed to the word cloud holds no capital ASCII letter:
    none of its characters has a code from 65 to 90. *)
Theorem X4_all_text_is_lower_case (df : DataFrame) :
  Forall (fun n => n < 65 \/ 90 < n) (codes (all_text df)).
Proof.
  apply Forall_forall. intros n Hin.
  rewrite <- lower_all_text, codes_lower in Hin.
  apply in_map_iff in Hin as [m [<- _]].
  pose proof (lower_code_not_capital m). lia.
Qed.

(** ** Sentiment frequencies *)

Section Frequencies.

Variable df : DataFrame.

(** The number of posts with a given sentiment, counted on the frame. *)
Lemma frequency_count s :
  Z.of_nat (List.length
    (filter (fun r => match Sentiment r with
                      | Some v => (v =? s)%string
                      | None => false
                      end) df)) =
  count s (dropna (map Sentiment df)).
Proof.
  unfold count. f_equal. induction df as [|r tl IH]; [reflexivity|].
  simpl. destruct (Sentiment r) as [v|]; simpl; [|exact IH].
  rewrite (String.eqb_sym s v). destruct (v =? s)%string; simpl; rewrite IH; reflexivity.
Qed.

Lemma count_positive s l : In s l <-> (0 < count s l)%Z.
Proof.
  unfold count. split.
  - intro Hin.
    destruct (filter (String.eqb s) l) as [|x tl] eqn:Hf; [|simpl List.length; lia].
    assert (H : In s (filter (String.eqb s) l))
      by (apply filter_In; split; [exact Hin | apply String.eqb_refl]).
    rewrite Hf in H. destruct H.
  - intro Hpos.
    destruct (filter (String.eqb s) l) as [|x tl] eqn:Hf; [simpl in Hpos; lia|].
    assert (H : In x (filter (String.eqb s) l)) by (rewrite Hf; left; reflexivity).
    apply filter_In in H as [Hin Heq]. apply String.eqb_eq in Heq. subst x. exact Hin.
Qed.

Lemma sum_values_fold l : sum_values l = fold_right Z.add 0%Z l.
Proof. reflexivity. Qed.

End Frequencies.

(** C4: [top_10_sentiments] (line 63) holds at most 10 labels, without
    repeats, each the sentiment of some post; a sentiment of the data that
    is left out is left out because the 10 places are taken, and it occurs
    in no more posts than any label taken.  Each entry of [SentimentCounts]
    is the number of posts with that sentiment, and the entries add up to
    at most the number of rows.  The frame of line 64 holds exactly the
    rows whose sentiment is one of the labels, and the keys of
    [sentiment_likes] (line 104) are exactly the labels. *)
Theorem C4_top_10_sentiments (df : DataFrame) :
  let frequency := fun s =>
    Z.of_nat (List.length
      (filter (fun r => match Sentiment r with
                        | Some v => (v =? s)%string
                        | None => false
                        end) df)) in
  let top := top_10_sentiments df in
  List.length top <= 10 /\
  NoDup top /\
  (forall s, In s top -> (0 < frequency s)%Z) /\
  (forall t, (0 < frequency t)%Z -> ~ In t top ->
     List.length top = 10 /\
     forall s, In s top -> (frequency t <= frequency s)%Z) /\
  (forall s c, In (s, c) (SentimentCounts df) -> c = frequency s) /\
  (fold_right Z.add 0%Z (map snd (SentimentCounts df)) <= Z.of_nat (List.length df))%Z /\
  (forall r, In r (sentiment_filtered_df df) <->
             In r df /\ exists s, Sentiment r = Some s /\ In s top) /\
  Permutation (map fst (sentiment_likes df)) top.
Proof.
  intros frequency top.
  assert (Hfreq : forall s, frequency s = count s (dropna (map Sentiment df)))
    by (intro s; apply frequency_count).
  split; [subst top; rewrite length_top_10_sentiments; lia|].
  split; [apply NoDup_top_10_sentiments|].
  split.
  { intros s Hs. rewrite Hfreq. apply count_positive, in_top_10_sentiments, Hs. }
  split.
  { intros t Ht Hnt. rewrite Hfreq in Ht. apply count_positive in Ht.
    split.
    - subst top. rewrite length_top_10_sentiments.
      destruct (Nat.le_gt_cases (List.length (unique (dropna (map Sentiment df)))) 10)
        as [Hle|Hgt]; [|lia].
      destruct Hnt. apply top_10_sentiments_all; assumption.
    - intros s Hs. rewrite !Hfreq.
      apply top_10_sentiments_most_frequent; assumption. }
  split.
  { intros s c H. rewrite Hfreq. apply (in_SentimentCounts df s c H). }
  split; [rewrite <- sum_values_fold; apply sum_SentimentCounts|].
  split; [apply in_sentiment_filtered_df | apply sentiment_likes_keys].
Qed.

(** X13: for every top-10 label the group that line 104 averages is made
    of all the rows of the whole frame with that sentiment, in frame
    order: restricting the frame to the top-10 labels first (line 64)
    loses no row of the label, and the group is never empty. *)
Theorem X13_sentiment_groups_keep_all_rows (df : DataFrame) (s : string)
  (Htop : In s (top_10_sentiments df)) :
  exists rows,
    In (s, rows) (groupby Sentiment (indexed (sentiment_filtered_df df))) /\
    rows <> [] /\
    map snd rows =
      filter (fun r => match Sentiment r with
                       | Some v => (v =? s)%string
                       | None => false
                       end) df.
Proof.
  exists (group_rows Sentiment s (indexed (sentiment_filtered_df df))).
  assert (Hrows : map snd (group_rows Sentiment s (indexed (sentiment_filtered_df df))) =
                  filter (fun r => cell_eqb (Sentiment r) s) df).
  { rewrite group_rows_indexed. apply filter_filter_isin, Htop. }
  split; [|split; [|exact Hrows]].
  - unfold groupby. apply in_map_iff. exists s. split; [reflexivity|].
    rewrite group_keys_indexed.
    apply (Permutation_in _ (Permutation_sym (sentiment_likes_keys df))) in Htop.
    unfold sentiment_likes in Htop. rewrite map_fst_mean_Likes_by in Htop.
    exact Htop.
  - intro Hnil. rewrite Hnil in Hrows. simpl in Hrows.
    pose proof (in_top_10_sentiments df s Htop) as Hv.
    apply in_dropna, in_map_iff in Hv as [r [Hr Hin]].
    assert (H : In r (filter (fun r => cell_eqb (Sentiment r) s) df))
      by (apply filter_In; split; [exact Hin | apply cell_eqb_true, Hr]).
    rewrite <- Hrows in H. exact H.
Qed.

Lemma X13_sentiment_groups_keep_all_rows_witness :
  exists rows,
    In ("Joy", rows) (groupby Sentiment (indexed (sentiment_filtered_df fixture5))) /\
    rows <> [] /\
    map snd rows =
      filter (fun r => match Sentiment r with
                       | Some v => (v =? "Joy")%string
                       | None => false
                       end) fixture5.
Proof.
  apply (X13_sentiment_groups_keep_all_rows fixture5 "Joy").
  vm_compute. left. reflexivity.
Defined.
